(** * OpenPLC OPC UA bridge (webserver/core/opcua.cpp): model and properties

    A shallow embedding of the OPC UA binding layer of the OpenPLC runtime:
    the manifest parser, the location resolver, the node registry, the
    read / write value handlers, the per-scan publisher and the server
    lifecycle.  C strings are character buffers, PLC memory is a finite map
    from cell addresses to bit patterns, NULL pointers are [None], the
    open62541 stack is an abstract interface, and every lock operation, log
    line, memory access and stack call is recorded in an event trace. *)

From Stdlib Require Import ZArith Ascii String DecimalString Bool Lia.
From Stdlib Require DecimalPos DecimalFacts.
From stdpp Require Import base option list gmap strings.

Local Open Scope Z_scope.

(** ** C strings *)

Abbreviation buffer := (list ascii).

Definition NUL : ascii := Ascii.zero.

Definition lit (s : string) : buffer := list_ascii_of_string s.

(** [buf[i]]; reading at or past the end of the written bytes yields the
    terminator. *)
Definition char_at (buf : buffer) (i : nat) : ascii := default NUL (buf !! i).

(** The characters of the C string stored at the start of [buf]. *)
Fixpoint c_str (buf : buffer) : buffer :=
  match buf with
  | [] => []
  | c :: s => if Ascii.eqb c NUL then [] else c :: c_str s
  end.

(** [strchr(s, c)] for [c <> 0]: offset of the first occurrence. *)
Fixpoint strchr (s : buffer) (c : ascii) : option nat :=
  match s with
  | [] => None
  | d :: s' =>
      if Ascii.eqb d NUL then None
      else if Ascii.eqb d c then Some O
      else S <$> strchr s' c
  end.

(** [strrchr(s, c)] for [c <> 0]: offset of the last occurrence. *)
Fixpoint strrchr (s : buffer) (c : ascii) : option nat :=
  match s with
  | [] => None
  | d :: s' =>
      if Ascii.eqb d NUL then None
      else match strrchr s' c with
           | Some i => Some (S i)
           | None => if Ascii.eqb d c then Some O else None
           end
  end.

Fixpoint starts_with (pat s : buffer) : bool :=
  match pat, s with
  | [], _ => true
  | _ :: _, [] => false
  | a :: pat', b :: s' => Ascii.eqb a b && starts_with pat' s'
  end.

(** [strstr(s, pat)]: offset of the first occurrence of [pat]. *)
Fixpoint strstr (s pat : buffer) : option nat :=
  if starts_with pat s then Some O
  else match s with
       | [] => None
       | _ :: s' => S <$> strstr s' pat
       end.

(** [strncmp(s, pat, strlen pat) == 0]. *)
Definition strncmp_eq (s pat : buffer) : bool := starts_with pat s.

Fixpoint skip_while (f : ascii -> bool) (s : buffer) : buffer :=
  match s with
  | c :: s' => if f c then skip_while f s' else s
  | [] => []
  end.

Fixpoint span_until (f : ascii -> bool) (s : buffer) : buffer * option buffer :=
  match s with
  | [] => ([], None)
  | c :: s' =>
      if f c then ([], Some s')
      else let '(tok, rest) := span_until f s' in (c :: tok, rest)
  end.

(** One call of [strtok_r] with the single delimiter [d]: the next token and
    the new save pointer, or [None] when only delimiters are left. *)
Definition strtok_r (d : ascii) (saveptr : buffer) : option (buffer * buffer) :=
  match skip_while (Ascii.eqb d) saveptr with
  | [] => None
  | s =>
      let '(tok, rest) := span_until (Ascii.eqb d) s in
      Some (tok, default [] rest)
  end.

(** The loop [while (tok && n < 8) { tokens[n++] = tok; tok = strtok_r(...) }]. *)
Fixpoint tokenize (room : nat) (saveptr : buffer) : list buffer :=
  match room with
  | O => []
  | S room' =>
      match strtok_r "," saveptr with
      | None => []
      | Some (tok, sp) => tok :: tokenize room' sp
      end
  end.

(** *** Integers of the C code *)

Definition wrap_uint32 (z : Z) : Z := z mod 2 ^ 32.
Definition wrap_int32 (z : Z) : Z := (z + 2 ^ 31) mod 2 ^ 32 - 2 ^ 31.

Definition LONG_MAX : Z := 2 ^ 63 - 1.
Definition LONG_MIN : Z := - 2 ^ 63.

Definition isspace (c : ascii) : bool :=
  let n := nat_of_ascii c in
  (Nat.eqb n 32 || (Nat.leb 9 n && Nat.leb n 13))%bool.

Definition isdigit (c : ascii) : bool :=
  let n := nat_of_ascii c in (Nat.leb 48 n && Nat.leb n 57)%bool.

Definition digit_value (c : ascii) : Z := Z.of_nat (nat_of_ascii c) - 48.

Fixpoint digits (acc : Z) (s : buffer) : Z :=
  match s with
  | c :: s' => if isdigit c then digits (10 * acc + digit_value c) s' else acc
  | [] => acc
  end.

(** [strtol(s, NULL, 10)] on an LP64 platform: white space, an optional sign,
    the longest run of digits, saturated to the range of [long]. *)
Definition strtol (s : buffer) : Z :=
  let v :=
    match skip_while isspace s with
    | "-"%char :: s' => - digits 0 s'
    | "+"%char :: s' => digits 0 s'
    | s' => digits 0 s'
    end in
  Z.max LONG_MIN (Z.min LONG_MAX v).

(** [atoi] as the C library implements it, [(int) strtol(s, NULL, 10)]. *)
Definition atoi (s : buffer) : Z := wrap_int32 (strtol s).

(** The characters [printf("%d", z)] produces. *)
Definition fmt_d (z : Z) : buffer := lit (NilZero.string_of_int (Z.to_int z)).

(** [snprintf(buf, size, ...)] keeps at most [size - 1] characters. *)
Definition snprintf (size : nat) (out : buffer) : buffer := take (size - 1) out.

(** ** open62541 data model used by the bridge *)

(** Entries of the [UA_TYPES] table.  A [const UA_DataType *] is modelled by
    [option UA_DataType], [None] being NULL; the bridge compares such
    pointers with the addresses of eleven scalar entries, every other entry
    of the table is [UA_TYPES_OTHER]. *)
Inductive UA_DataType : Type :=
  | UA_TYPES_BOOLEAN
  | UA_TYPES_SBYTE
  | UA_TYPES_BYTE
  | UA_TYPES_INT16
  | UA_TYPES_UINT16
  | UA_TYPES_INT32
  | UA_TYPES_UINT32
  | UA_TYPES_INT64
  | UA_TYPES_UINT64
  | UA_TYPES_FLOAT
  | UA_TYPES_DOUBLE
  | UA_TYPES_OTHER (index : nat).

#[global] Instance UA_DataType_eq_dec : EqDecision UA_DataType.
Proof. solve_decision. Defined.

(** Width in bits of the C object a scalar of the given type occupies. *)
Definition type_bits (t : UA_DataType) : Z :=
  match t with
  | UA_TYPES_BOOLEAN | UA_TYPES_SBYTE | UA_TYPES_BYTE => 8
  | UA_TYPES_INT16 | UA_TYPES_UINT16 => 16
  | UA_TYPES_INT32 | UA_TYPES_UINT32 | UA_TYPES_FLOAT => 32
  | UA_TYPES_INT64 | UA_TYPES_UINT64 | UA_TYPES_DOUBLE => 64
  | UA_TYPES_OTHER _ => 0
  end.

(** The bit pattern of an object of type [t] whose bytes are those of [z]:
    what [*(const T * )p] yields when the cell at [p] holds [z]. *)
Definition as_type (t : UA_DataType) (z : Z) : Z := z mod 2 ^ type_bits t.

Definition UA_StatusCode := Z.
Definition UA_STATUSCODE_GOOD : UA_StatusCode := 0x00000000.
Definition UA_STATUSCODE_BADINTERNALERROR : UA_StatusCode := 0x80020000.
Definition UA_STATUSCODE_BADNODEIDEXISTS : UA_StatusCode := 0x805E0000.
Definition UA_STATUSCODE_BADTYPEMISMATCH : UA_StatusCode := 0x80740000.

(** Numeric node ids: [UA_NODEID_NUMERIC(ns, i)]. *)
Record UA_NodeId : Type := UA_NODEID_NUMERIC {
  namespaceIndex : Z;
  numeric : Z
}.

#[global] Instance UA_NodeId_eq_dec : EqDecision UA_NodeId.
Proof. solve_decision. Defined.

(** Addresses of memory cells; a pointer is [option addr]. *)
Abbreviation addr := positive.

(** [UA_Variant]: the type pointer, the data pointer (here: the scalar the
    data pointer refers to) and the array length. *)
Record UA_Variant : Type := {
  v_type : option UA_DataType;
  v_data : option Z;
  v_arrayLength : Z
}.

Definition UA_Variant_isScalar (v : UA_Variant) : bool :=
  (v_arrayLength v =? 0) && bool_decide (is_Some (v_data v)).

Definition UA_Variant_init : UA_Variant :=
  {| v_type := None; v_data := None; v_arrayLength := 0 |}.

(** [UA_Variant_setScalarCopy(&v, &x, t)]. *)
Definition UA_Variant_setScalarCopy (x : Z) (t : UA_DataType) : UA_Variant :=
  {| v_type := Some t; v_data := Some x; v_arrayLength := 0 |}.

Record UA_DataValue : Type := {
  value : UA_Variant;
  hasValue : bool;
  hasStatus : bool;
  status : UA_StatusCode;
  hasSourceTimestamp : bool
}.

(** ** The process image (ladder.h)

    The glue tables of the runtime: arrays of [BUFFER_SIZE] pointers to the
    cells of the loaded program.  A table is a finite map from the index to
    the address stored there; an index without an entry holds NULL. *)
Record Image : Type := {
  BUFFER_SIZE : Z;
  bool_input : gmap (Z * Z) addr;
  bool_output : gmap (Z * Z) addr;
  byte_input : gmap Z addr;
  byte_output : gmap Z addr;
  int_input : gmap Z addr;
  int_output : gmap Z addr;
  dint_input : gmap Z addr;
  dint_output : gmap Z addr;
  lint_input : gmap Z addr;
  lint_output : gmap Z addr;
  real_input : gmap Z addr;
  real_output : gmap Z addr;
  lreal_input : gmap Z addr;
  lreal_output : gmap Z addr;
  int_memory : gmap Z addr;
  dint_memory : gmap Z addr;
  lint_memory : gmap Z addr;
  real_memory : gmap Z addr;
  lreal_memory : gmap Z addr
}.

(** ** Location resolver *)

(** One guarded table access of the resolver,
    [if (type == c) { if (0 <= index1 < BUFFER_SIZE && tbl[...] != NULL) return ...; }],
    followed by the rest of the case. *)
Definition slot_case (type c : ascii) (img : Image) (index1 : Z)
    (slot : option addr) (t : UA_DataType)
    (rest : option (addr * UA_DataType)) : option (addr * UA_DataType) :=
  if Ascii.eqb type c then
    if (0 <=? index1) && (index1 <? BUFFER_SIZE img) then
      match slot with
      | Some p => Some (p, t)
      | None => rest
      end
    else rest
  else rest.

(** [resolvePointerFromLocation(location, &ptr, &type)]: [Some (ptr, type)]
    when the function returns true. *)
Definition resolvePointerFromLocation (img : Image) (location : buffer)
    : option (addr * UA_DataType) :=
  if negb (Ascii.eqb (char_at location 0) "%") then None else
  let area := char_at location 1 in
  let type := char_at location 2 in
  let rest := drop 3 location in
  let indices : option (Z * Z) :=
    if Ascii.eqb type "X" then
      let index1 := atoi rest in
      match strchr rest "." with
      | None => None
      | Some dot =>
          let index2 := atoi (drop (S dot) rest) in
          if (index2 <? 0) || (index2 >=? 8) then None
          else Some (index1, index2)
      end
    else Some (atoi rest, -1) in
  match indices with
  | None => None
  | Some (index1, index2) =>
      let case := fun c slot t k => slot_case type c img index1 slot t k in
      if Ascii.eqb area "I" then
        case "X"%char (bool_input img !! (index1, index2)) UA_TYPES_BOOLEAN
        (case "B"%char (byte_input img !! index1) UA_TYPES_BYTE
        (case "W"%char (int_input img !! index1) UA_TYPES_UINT16
        (case "D"%char (dint_input img !! index1) UA_TYPES_UINT32
        (case "L"%char (lint_input img !! index1) UA_TYPES_UINT64
        (case "R"%char (real_input img !! index1) UA_TYPES_FLOAT
        (case "F"%char (lreal_input img !! index1) UA_TYPES_DOUBLE
         None))))))
      else if Ascii.eqb area "Q" then
        case "X"%char (bool_output img !! (index1, index2)) UA_TYPES_BOOLEAN
        (case "B"%char (byte_output img !! index1) UA_TYPES_BYTE
        (case "W"%char (int_output img !! index1) UA_TYPES_UINT16
        (case "D"%char (dint_output img !! index1) UA_TYPES_UINT32
        (case "L"%char (lint_output img !! index1) UA_TYPES_UINT64
        (case "R"%char (real_output img !! index1) UA_TYPES_FLOAT
        (case "F"%char (lreal_output img !! index1) UA_TYPES_DOUBLE
         None))))))
      else if Ascii.eqb area "M" then
        case "W"%char (int_memory img !! index1) UA_TYPES_UINT16
        (case "D"%char (dint_memory img !! index1) UA_TYPES_UINT32
        (case "L"%char (lint_memory img !! index1) UA_TYPES_UINT64
        (case "R"%char (real_memory img !! index1) UA_TYPES_FLOAT
        (case "F"%char (lreal_memory img !! index1) UA_TYPES_DOUBLE
         None))))
      else None
  end.

(** ** Bridge data structures *)

(** [struct OpcVarBinding]: the node context of the data-source handlers
    [readVariableValue] and [writeVariableValue]. *)
Module OpcVarBinding.
Record t : Type := mk {
  variablePtr : option addr;
  dataType : option UA_DataType;
  shadowPtr : option addr
}.
End OpcVarBinding.

(** [struct OpcNodeInfo]: an element of [g_node_list], and the node context
    of [onVariableValueWrite]. *)
Module OpcNodeInfo.
Record t : Type := mk {
  nodeId : UA_NodeId;
  variablePtr : option addr;
  dataType : option UA_DataType
}.
End OpcNodeInfo.

(** ** Memory, locks and the event trace *)

Inductive Mutex : Type := bufferLock | opcua_mutex.

#[global] Instance Mutex_eq_dec : EqDecision Mutex.
Proof. solve_decision. Defined.

Inductive Event : Type :=
  | EvLock (m : Mutex)
  | EvUnlock (m : Mutex)
  | EvLog (msg : string)
  | EvLoad (p : addr)
  | EvStore (p : addr) (v : Z)
  | EvStack (call : string)
  | EvSleep (usec : Z).

#[global] Instance Event_eq_dec : EqDecision Event.
Proof. solve_decision. Defined.

(** PLC memory and shadow cells (bit patterns by cell address), and the
    events so far, oldest first. *)
Record Machine : Type := {
  mem : gmap addr Z;
  trace : list Event
}.

Definition emit (e : Event) (m : Machine) : Machine :=
  {| mem := mem m; trace := trace m ++ [e] |}.

Definition pthread_mutex_lock (l : Mutex) : Machine -> Machine := emit (EvLock l).
Definition pthread_mutex_unlock (l : Mutex) : Machine -> Machine := emit (EvUnlock l).
Definition openplc_log (msg : string) : Machine -> Machine := emit (EvLog msg).

Definition cell (m : Machine) (p : addr) : Z := default 0 (mem m !! p).

(** Outcome of a handler: it returns, or it dereferences NULL. *)
Inductive Outcome (A : Type) : Type :=
  | Returns (a : A) (m : Machine)
  | Fault (m : Machine).
Arguments Returns {A} a m.
Arguments Fault {A} m.

Definition Op (A : Type) : Type := Machine -> Outcome A.

Definition ret {A} (a : A) : Op A := fun m => Returns a m.

Definition bind {A B} (c : Op A) (k : A -> Op B) : Op B :=
  fun m => match c m with
           | Returns a m' => k a m'
           | Fault m' => Fault m'
           end.

Definition act (f : Machine -> Machine) : Op unit := fun m => Returns tt (f m).

Declare Scope op_scope.
Delimit Scope op_scope with op.
Notation "x <- c ;; k" := (bind c (fun x => k))
  (at level 100, c at next level, right associativity) : op_scope.
Notation "c ;; k" := (bind c (fun _ => k))
  (at level 100, right associativity) : op_scope.

(** [*(T * )p]: reads the cell [p] points to. *)
Definition deref (t : UA_DataType) (p : option addr) : Op Z :=
  fun m => match p with
           | Some a => Returns (as_type t (cell m a)) (emit (EvLoad a) m)
           | None => Fault m
           end.

(** [*(T * )p = v]. *)
Definition assign (t : UA_DataType) (p : option addr) (v : Z) : Op unit :=
  fun m => match p with
           | Some a =>
               Returns tt {| mem := <[a := as_type t v]> (mem m);
                             trace := trace m ++ [EvStore a (as_type t v)] |}
           | None => Fault m
           end.

(** The eleven scalar types the handlers' [if]-chains compare with. *)
Definition handled (t : UA_DataType) : bool :=
  match t with
  | UA_TYPES_BOOLEAN | UA_TYPES_BYTE | UA_TYPES_SBYTE
  | UA_TYPES_INT16 | UA_TYPES_INT32 | UA_TYPES_INT64
  | UA_TYPES_UINT16 | UA_TYPES_UINT32 | UA_TYPES_UINT64
  | UA_TYPES_FLOAT | UA_TYPES_DOUBLE => true
  | UA_TYPES_OTHER _ => false
  end.

(** ** Value handlers *)

Section Handlers.
Local Open Scope op_scope.
Import OpcVarBinding.

(** What the read handler leaves in [*dataValue] on its two GOOD exits. *)
Definition read_result (val : UA_Variant) : UA_DataValue :=
  {| value := val;
     hasValue := false;
     hasStatus := true;
     status := UA_STATUSCODE_GOOD;
     hasSourceTimestamp := false |}.

(** [readVariableValue]: the status returned and [*dataValue] afterwards.
    The [if]-chain over the binding's type has one branch per scalar type,
    each copying the shadow cell into the variant; for any other type the
    variant is left as it was. *)
Definition readVariableValue (nodeContext : option OpcVarBinding.t)
    (dataValue : option UA_DataValue)
    : Op (UA_StatusCode * option UA_DataValue) :=
  match nodeContext, dataValue with
  | Some binding, Some dv =>
      match dataType binding, shadowPtr binding with
      | Some t, Some _ =>
          val <- (if handled t then
                    v <- deref t (shadowPtr binding);;
                    ret (UA_Variant_setScalarCopy v t)
                  else ret (value dv));;
          ret (UA_STATUSCODE_GOOD, Some (read_result val))
      | _, _ => ret (UA_STATUSCODE_GOOD, Some (read_result (value dv)))
      end
  | _, _ => ret (UA_STATUSCODE_BADINTERNALERROR, dataValue)
  end.

(** The variant checks shared by both write handlers:
    [!UA_Variant_isScalar(v) || v.data == NULL || v.type == NULL]. *)
Definition variant_scalar (v : UA_Variant) : option (UA_DataType * Z) :=
  if UA_Variant_isScalar v then
    match v_data v, v_type v with
    | Some z, Some t => Some (t, z)
    | _, _ => None
    end
  else None.

(** [writeVariableValue]. *)
Definition writeVariableValue (nodeContext : option OpcVarBinding.t)
    (dataValue : option UA_DataValue) : Op UA_StatusCode :=
  match nodeContext, dataValue with
  | Some binding, Some dv =>
      if negb (hasValue dv) then ret UA_STATUSCODE_BADINTERNALERROR else
      act (pthread_mutex_lock bufferLock);;
      act (openplc_log "OPCUA WRITE cb");;
      match variant_scalar (value dv) with
      | None =>
          act (pthread_mutex_unlock bufferLock);;
          ret UA_STATUSCODE_BADTYPEMISMATCH
      | Some (tv, z) =>
          if negb (bool_decide (Some tv = dataType binding)) then
            act (pthread_mutex_unlock bufferLock);;
            ret UA_STATUSCODE_BADTYPEMISMATCH
          else if handled tv then
            assign tv (variablePtr binding) z;;
            (if bool_decide (is_Some (shadowPtr binding))
             then assign tv (shadowPtr binding) z else ret tt);;
            act (pthread_mutex_unlock bufferLock);;
            ret UA_STATUSCODE_GOOD
          else
            act (pthread_mutex_unlock bufferLock);;
            ret UA_STATUSCODE_BADTYPEMISMATCH
      end
  | _, _ => ret UA_STATUSCODE_BADINTERNALERROR
  end.

(** [onVariableValueWrite], the [onWrite] value callback installed by
    [addVariableNode]; it returns nothing. *)
Definition onVariableValueWrite (nodeContext : option OpcNodeInfo.t)
    (data : option UA_DataValue) : Op unit :=
  match nodeContext, data with
  | Some info, Some d =>
      if negb (hasValue d) then ret tt else
      match OpcNodeInfo.variablePtr info, OpcNodeInfo.dataType info with
      | Some _, Some t =>
          match variant_scalar (value d) with
          | None => ret tt
          | Some (tv, z) =>
              if negb (bool_decide (tv = t)) then ret tt else
              act (pthread_mutex_lock bufferLock);;
              (if handled t
               then assign t (OpcNodeInfo.variablePtr info) z else ret tt);;
              act (pthread_mutex_unlock bufferLock)
          end
      | _, _ => ret tt
      end
  | _, _ => ret tt
  end.
End Handlers.

Definition machine0 (cells : list (addr * Z)) : Machine :=
  {| mem := list_to_map cells; trace := [] |}.

Definition scalar_value (t : UA_DataType) (z : Z) : UA_DataValue :=
  {| value := UA_Variant_setScalarCopy z t;
     hasValue := true;
     hasStatus := false;
     status := UA_STATUSCODE_GOOD;
     hasSourceTimestamp := false |}.

Definition empty_value : UA_DataValue :=
  {| value := UA_Variant_init;
     hasValue := false;
     hasStatus := false;
     status := UA_STATUSCODE_GOOD;
     hasSourceTimestamp := false |}.

(** ** The open62541 stack and the C runtime, as consumed by the bridge

    [W] is the state of everything behind the API (server instances, their
    address spaces, the allocator), [Srv] the type of non-NULL
    [UA_Server *] handles.  Each operation takes the state and returns its
    result with the new state.  Value callbacks the stack invokes are not
    part of these transitions; the handlers above are their entry points. *)
Class Stack (W Srv : Type) : Type := {
  UA_Server_new : W -> option Srv * W;
  (** whether [UA_Server_getConfig] returns a non-NULL configuration *)
  UA_Server_getConfig : W -> Srv -> bool;
  UA_ServerConfig_setMinimal : W -> Srv -> Z -> UA_StatusCode * W;
  UA_Server_addNamespace : W -> Srv -> string -> Z * W;
  (** server, requested id, parent, browse name *)
  UA_Server_addObjectNode :
    W -> Srv -> UA_NodeId -> UA_NodeId -> string -> UA_StatusCode * W;
  (** server, requested id, parent, browse name, data type, initial value *)
  UA_Server_addVariableNode :
    W -> Srv -> UA_NodeId -> UA_NodeId -> buffer -> UA_DataType ->
    UA_Variant -> UA_StatusCode * W;
  UA_Server_setNodeContext : W -> Srv -> UA_NodeId -> OpcNodeInfo.t -> W;
  UA_Server_setVariableNode_valueCallback : W -> Srv -> UA_NodeId -> W;
  UA_Server_writeValue :
    W -> Srv -> UA_NodeId -> UA_Variant -> UA_StatusCode * W;
  UA_Server_run_startup : W -> Srv -> UA_StatusCode * W;
  UA_Server_run_iterate : W -> option Srv -> W;
  UA_Server_delete : W -> option Srv -> W;
  (** whether [malloc(sizeof(OpcNodeInfo))] returns non-NULL *)
  malloc_OpcNodeInfo : W -> bool * W
}.

(** ** Global state of the bridge *)

Section Bridge.
Context {W Srv : Type} {stack : Stack W Srv}.

(** The globals of opcua.cpp, the function-static [nextId] of
    [createNodesFromLocatedVariables], and the surroundings: the stack,
    memory and trace, the glue tables and the files [fopen] can open.
    [g_binding_head] is never assigned and stays NULL; it is left out.
    [g_node_count] is an [int] counter, exact below [2^31]. *)
Record State : Type := {
  world : W;
  machine : Machine;
  image : Image;
  files : gmap string buffer;
  g_opcua_server : option Srv;
  g_opcua_running : bool;
  g_namespace_index : Z;
  g_node_list : list OpcNodeInfo.t;
  g_node_count : Z;
  nextId : Z
}.

Definition set_world (w : W) (st : State) : State :=
  {| world := w; machine := machine st; image := image st;
     files := files st; g_opcua_server := g_opcua_server st;
     g_opcua_running := g_opcua_running st;
     g_namespace_index := g_namespace_index st;
     g_node_list := g_node_list st; g_node_count := g_node_count st;
     nextId := nextId st |}.

Definition on_machine (f : Machine -> Machine) (st : State) : State :=
  {| world := world st; machine := f (machine st); image := image st;
     files := files st; g_opcua_server := g_opcua_server st;
     g_opcua_running := g_opcua_running st;
     g_namespace_index := g_namespace_index st;
     g_node_list := g_node_list st; g_node_count := g_node_count st;
     nextId := nextId st |}.

Definition set_g_opcua_server (s : option Srv) (st : State) : State :=
  {| world := world st; machine := machine st; image := image st;
     files := files st; g_opcua_server := s;
     g_opcua_running := g_opcua_running st;
     g_namespace_index := g_namespace_index st;
     g_node_list := g_node_list st; g_node_count := g_node_count st;
     nextId := nextId st |}.

Definition set_g_opcua_running (b : bool) (st : State) : State :=
  {| world := world st; machine := machine st; image := image st;
     files := files st; g_opcua_server := g_opcua_server st;
     g_opcua_running := b;
     g_namespace_index := g_namespace_index st;
     g_node_list := g_node_list st; g_node_count := g_node_count st;
     nextId := nextId st |}.

Definition set_g_namespace_index (i : Z) (st : State) : State :=
  {| world := world st; machine := machine st; image := image st;
     files := files st; g_opcua_server := g_opcua_server st;
     g_opcua_running := g_opcua_running st;
     g_namespace_index := i;
     g_node_list := g_node_list st; g_node_count := g_node_count st;
     nextId := nextId st |}.

(** [nodeInfo->next = g_node_list; g_node_list = nodeInfo; g_node_count++]. *)
Definition push_node (info : OpcNodeInfo.t) (st : State) : State :=
  {| world := world st; machine := machine st; image := image st;
     files := files st; g_opcua_server := g_opcua_server st;
     g_opcua_running := g_opcua_running st;
     g_namespace_index := g_namespace_index st;
     g_node_list := info :: g_node_list st;
     g_node_count := g_node_count st + 1;
     nextId := nextId st |}.

Definition set_nextId (i : Z) (st : State) : State :=
  {| world := world st; machine := machine st; image := image st;
     files := files st; g_opcua_server := g_opcua_server st;
     g_opcua_running := g_opcua_running st;
     g_namespace_index := g_namespace_index st;
     g_node_list := g_node_list st; g_node_count := g_node_count st;
     nextId := i |}.

Definition log (msg : string) : State -> State := on_machine (openplc_log msg).
Definition lock (l : Mutex) : State -> State := on_machine (pthread_mutex_lock l).
Definition unlock (l : Mutex) : State -> State := on_machine (pthread_mutex_unlock l).
Definition usleep (usec : Z) : State -> State := on_machine (emit (EvSleep usec)).

(** A call into the stack: recorded in the trace, then performed. *)
Definition call {A} (name : string) (f : W -> A * W) (st : State) : A * State :=
  let '(a, w) := f (world st) in
  (a, set_world w (on_machine (emit (EvStack name)) st)).

Definition call_ (name : string) (f : W -> W) (st : State) : State :=
  set_world (f (world st)) (on_machine (emit (EvStack name)) st).
End Bridge.

Arguments State W Srv : clear implicits.

(** ** Address-space construction and the per-scan publisher *)

Section Operations.
Context {W Srv : Type} {stack : Stack W Srv}.
Abbreviation State := (State W Srv).

(** [malloc(sizeof(OpcNodeInfo))]. *)
Definition malloc (st : State) : bool * State :=
  let '(ok, w) := malloc_OpcNodeInfo (world st) in (ok, set_world w st).

(** The initial value [addVariableNode] gives [attr.value]: the zero of
    the declared type, or an empty variant for a type outside the chain. *)
Definition initial_value (t : UA_DataType) : UA_Variant :=
  if handled t then UA_Variant_setScalarCopy 0 t else UA_Variant_init.

(** [addVariableNode(server, nodeName, parentNodeId, nodeId, variablePtr, dataType)]. *)
Definition addVariableNode (server : Srv) (nodeName : buffer)
    (parentNodeId nodeId : UA_NodeId) (variablePtr : option addr)
    (dataType : option UA_DataType) (st : State) : State :=
  match variablePtr, dataType with
  | None, _ => st
  | _, None => st
  | Some _, Some t =>
      let st := log "Creating node" st in
      let '(retval, st) :=
        call "UA_Server_addVariableNode"
          (fun w => UA_Server_addVariableNode w server nodeId parentNodeId
                      nodeName t (initial_value t)) st in
      if retval =? UA_STATUSCODE_GOOD then
        let st := log "Node added successfully" st in
        let '(allocated, st) := malloc st in
        if allocated : bool then
          let nodeInfo := OpcNodeInfo.mk nodeId variablePtr dataType in
          let st := lock opcua_mutex st in
          let st := push_node nodeInfo st in
          let st := unlock opcua_mutex st in
          let st := log "Registered node for updates" st in
          let st :=
            call_ "UA_Server_setNodeContext"
              (fun w => UA_Server_setNodeContext w server nodeId nodeInfo) st in
          call_ "UA_Server_setVariableNode_valueCallback"
            (fun w => UA_Server_setVariableNode_valueCallback w server nodeId) st
        else
          log "Failed to allocate OpcNodeInfo; node will not be updated periodically" st
      else if retval =? UA_STATUSCODE_BADNODEIDEXISTS then
        log "Node already exists, skipping" st
      else
        log "Failed to add node" st
  end.

(** The value the publisher reads through [it->variablePtr]: the cell seen
    at the IEC type, converted to the UA type of the node (for BOOLEAN an
    [IEC_BOOL] byte becomes a C++ [bool]). *)
Definition iec_to_ua (t : UA_DataType) (z : Z) : Z :=
  match t with
  | UA_TYPES_BOOLEAN => if as_type t z =? 0 then 0 else 1
  | _ => as_type t z
  end.

(** One iteration of the publisher's second loop. *)
Definition update_node (server : Srv) (it : OpcNodeInfo.t) (st : State) : State :=
  match OpcNodeInfo.variablePtr it, OpcNodeInfo.dataType it with
  | Some p, Some t =>
      let '(value, st) :=
        if handled t then
          let v := iec_to_ua t (cell (machine st) p) in
          (UA_Variant_setScalarCopy v t, on_machine (emit (EvLoad p)) st)
        else (UA_Variant_init, st) in
      let '(retval, st) :=
        call "UA_Server_writeValue"
          (fun w => UA_Server_writeValue w server (OpcNodeInfo.nodeId it) value) st in
      if negb (retval =? UA_STATUSCODE_GOOD)
      then log "Failed to update node value" st
      else st
  | _, _ => st
  end.

(** [opcuaUpdateNodeValues()], called by the scan loop once per cycle.  The
    first loop only counts the nodes; the line logged after it is the
    content of an uninitialised buffer. *)
Definition opcuaUpdateNodeValues (st : State) : State :=
  match g_opcua_server st with
  | Some server =>
      if g_opcua_running st then
        let st := lock opcua_mutex st in
        let st := log "<debug_msg>" st in
        let st := foldl (fun st it => update_node server it st) st (g_node_list st) in
        unlock opcua_mutex st
      else log "opcuaUpdateNodeValues() - server not running, skipping" st
  | None => log "opcuaUpdateNodeValues() - server not running, skipping" st
  end.

(** [registerNamespace(server)]. *)
Definition registerNamespace (server : Srv) (st : State) : State :=
  let '(idx, st) :=
    call "UA_Server_addNamespace"
      (fun w => UA_Server_addNamespace w server "http://openplc.org/") st in
  let st := set_g_namespace_index idx st in
  if idx =? 0 then log "Failed to add OpenPLC namespace" st
  else log "OpenPLC namespace registered" st.

(** One [UA_Server_addObjectNode] of a folder with its failure log. *)
Definition add_folder (server : Srv) (id : Z) (parent : UA_NodeId)
    (name : string) (st : State) : State :=
  let '(retval, st) :=
    call "UA_Server_addObjectNode"
      (fun w => UA_Server_addObjectNode w server
                  (UA_NODEID_NUMERIC (g_namespace_index st) id) parent name) st in
  if negb (retval =? UA_STATUSCODE_GOOD) &&
     negb (retval =? UA_STATUSCODE_BADNODEIDEXISTS)
  then log ("Failed to create folder " +:+ name) st
  else st.

Definition UA_NS0ID_OBJECTSFOLDER : Z := 85.

(** [createFolderStructure(server)]. *)
Definition createFolderStructure (server : Srv) (st : State) : State :=
  let st := log "Creating folder structure..." st in
  let objectsFolder := UA_NODEID_NUMERIC 0 UA_NS0ID_OBJECTSFOLDER in
  let openplcFolder := UA_NODEID_NUMERIC (g_namespace_index st) 1000 in
  let st := add_folder server 1000 objectsFolder "OpenPLC" st in
  let st := add_folder server 2000 openplcFolder "BooleanInputs" st in
  let st := add_folder server 2001 openplcFolder "BooleanOutputs" st in
  let st := add_folder server 2002 openplcFolder "IntegerInputs" st in
  let st := add_folder server 2003 openplcFolder "IntegerOutputs" st in
  let st := add_folder server 2004 openplcFolder "MemoryVariables" st in
  log "Folder structure created successfully" st.

(** [createProgramVariablesFolder(server, &folder)]. *)
Definition createProgramVariablesFolder (server : Srv) (st : State)
    : UA_NodeId * State :=
  let openplcFolder := UA_NODEID_NUMERIC (g_namespace_index st) 1000 in
  let programVarsFolder := UA_NODEID_NUMERIC (g_namespace_index st) 2100 in
  (programVarsFolder, add_folder server 2100 openplcFolder "ProgramVariables" st).
End Operations.

(** ** The manifest LOCATED_VARIABLES.h *)

(** [fgets(line, size, f)] on the unread part of the file: the characters
    delivered (at most [size - 1], through the first newline) and what is
    left unread. *)
Fixpoint fgets_chunk (room : nat) (stream : buffer) : buffer * buffer :=
  match room, stream with
  | S room', c :: s' =>
      if Ascii.eqb c "010" then ([c], s')
      else let '(l, r) := fgets_chunk room' s' in (c :: l, r)
  | _, _ => ([], stream)
  end.

Definition fgets (size : nat) (stream : buffer) : option (buffer * buffer) :=
  match stream with
  | [] => None
  | _ => Some (fgets_chunk (size - 1) stream)
  end.

Fixpoint read_lines (fuel : nat) (stream : buffer) : list buffer :=
  match fuel with
  | O => []
  | S fuel' =>
      match fgets 1024 stream with
      | None => []
      | Some (line, rest) => line :: read_lines fuel' rest
      end
  end.

(** The successive contents of [line] in [while (fgets(line, sizeof(line), f))]. *)
Definition file_lines (content : buffer) : list buffer :=
  read_lines (length content) content.

Definition is_blank (c : ascii) : bool :=
  Ascii.eqb c " " || Ascii.eqb c "009" || Ascii.eqb c "013" || Ascii.eqb c "010".

Definition is_space_or_tab (c : ascii) : bool :=
  Ascii.eqb c " " || Ascii.eqb c "009".

(** What the loop body makes of one line before it consults the image. *)
Inductive ParsedLine : Type :=
  | NoMarker
  | Rejected
  | LocatedVar (dispName location : buffer).

(** [lpar = strchr(p, '('); rpar = strrchr(lpar, ')'); *rpar = 0; args = lpar + 1]:
    the text between the first [(] and the last [)] after it, or [None]
    when either is missing. *)
Definition located_var_args (p : buffer) : option buffer :=
  match strchr p "(" with
  | None => None
  | Some lpar =>
      match strrchr (drop lpar p) ")" with
      | None => None
      | Some rpar => Some (take (rpar - 1) (drop (S lpar) p))
      end
  end.

(** The loop body of [createNodesFromLocatedVariables] up to the call of the
    resolver: filter on the marker, cut out the arguments, split them at
    commas into at most 8 tokens, and compose the display name and the
    location string. *)
Definition parse_located_var (line : buffer) : ParsedLine :=
  let p := skip_while is_blank (c_str line) in
  match strstr p (lit "__LOCATED_VAR(") with
  | None => NoMarker
  | Some _ =>
      match located_var_args p with
      | None => Rejected
      | Some args =>
          let tokens := tokenize 8 args in
          let n := length tokens in
          if (n <? 6)%nat then Rejected else
          let tok := fun k => default [] (tokens !! k) in
          let nameTok := skip_while is_space_or_tab (tok 1%nat) in
          let nameTok :=
            if strncmp_eq nameTok (lit "__") then drop 2 nameTok else nameTok in
          let dispName := snprintf 128 nameTok in
          let area := char_at (skip_while is_space_or_tab (tok 2%nat)) 0 in
          let typ := char_at (skip_while is_space_or_tab (tok 3%nat)) 0 in
          let idx1 := atoi (tok 4%nat) in
          let idx2 := if (6 <=? n)%nat then atoi (tok 5%nat) else 0 in
          let location :=
            if Ascii.eqb typ "X"
            then snprintf 64
                   (["%"%char; area; "X"%char] ++ fmt_d idx1 ++ ["."%char] ++ fmt_d idx2)
            else snprintf 64 (["%"%char; area; typ] ++ fmt_d idx1) in
          LocatedVar dispName location
      end
  end.

Definition hdrCandidates : list string :=
  ["LOCATED_VARIABLES.h"; "./LOCATED_VARIABLES.h"; "core/LOCATED_VARIABLES.h";
   "./core/LOCATED_VARIABLES.h"; "../core/LOCATED_VARIABLES.h";
   "../LOCATED_VARIABLES.h"]%string.

(** The first candidate [fopen] can open. *)
Fixpoint fopen_first (fs : gmap string buffer) (paths : list string) : option buffer :=
  match paths with
  | [] => None
  | path :: paths' =>
      match fs !! path with
      | Some content => Some content
      | None => fopen_first fs paths'
      end
  end.

Section Manifest.
Context {W Srv : Type} {stack : Stack W Srv}.
Abbreviation State := (State W Srv).

(** Locals of [createNodesFromLocatedVariables] that live across lines. *)
Record Scan : Type := {
  scan_state : State;
  added : Z;
  seen : Z
}.

(** One iteration of the [while (fgets ...)] loop. *)
Definition scan_line (server : Srv) (programFolder : UA_NodeId)
    (sc : Scan) (line : buffer) : Scan :=
  let st := scan_state sc in
  match parse_located_var line with
  | NoMarker => sc
  | Rejected => {| scan_state := st; added := added sc; seen := seen sc + 1 |}
  | LocatedVar dispName location =>
      match resolvePointerFromLocation (image st) location with
      | None => {| scan_state := st; added := added sc; seen := seen sc + 1 |}
      | Some (ptr, uaType) =>
          let nodeId := UA_NODEID_NUMERIC (g_namespace_index st) (nextId st) in
          let st := set_nextId (wrap_uint32 (nextId st + 1)) st in
          let st :=
            addVariableNode server dispName programFolder nodeId
              (Some ptr) (Some uaType) st in
          {| scan_state := st; added := added sc + 1; seen := seen sc + 1 |}
      end
  end.

(** [createNodesFromLocatedVariables(server)]: the value returned and the
    state afterwards. *)
Definition createNodesFromLocatedVariables (server : Srv) (st : State)
    : Z * State :=
  let '(programFolder, st) := createProgramVariablesFolder server st in
  match fopen_first (files st) hdrCandidates with
  | None =>
      (0, log "LOCATED_VARIABLES.h not found in common locations. No nodes created." st)
  | Some content =>
      let sc :=
        foldl (scan_line server programFolder)
          {| scan_state := st; added := 0; seen := 0 |} (file_lines content) in
      let st := scan_state sc in
      if added sc =? 0
      then (added sc, log "No located variables found in LOCATED_VARIABLES.h" st)
      else (added sc, st)
  end.

(** [scanAndCreateNodes(server)]. *)
Definition scanAndCreateNodes (server : Srv) (st : State) : State :=
  let st := log "Starting to scan and create OPC UA nodes..." st in
  let st := createFolderStructure server st in
  let '(_, st) := createNodesFromLocatedVariables server st in
  log "Finished creating OPC UA nodes" st.

(** ** Server lifecycle *)

(** [stopOpcua()] up to the end of its 100 ms wait. *)
Definition stopOpcua_signal (st : State) : State :=
  let st := log "Stopping OPC UA server..." st in
  let st := set_g_opcua_running false st in
  usleep 100000 st.

(** The forced cleanup at the end of [stopOpcua()]. *)
Definition stopOpcua_cleanup (st : State) : State :=
  match g_opcua_server st with
  | Some server =>
      let st := log "Force cleaning up OPC UA server instance" st in
      let st := call_ "UA_Server_delete" (fun w => UA_Server_delete w (Some server)) st in
      set_g_opcua_server None st
  | None => st
  end.

(** [stopOpcua()] when nothing runs in between. *)
Definition stopOpcua (st : State) : State :=
  if g_opcua_running st then stopOpcua_cleanup (stopOpcua_signal st) else st.

(** [logOpen62541AbiInfo(server)]: the sizes line, then the configuration is
    fetched to log the version string it carries (that line is not part of
    the trace). *)
Definition logOpen62541AbiInfo (server : Srv) (st : State) : State :=
  let st := log "sizeof(UA_DataValue)=... UA_TYPES_COUNT=..." st in
  snd (call "UA_Server_getConfig" (fun w => (UA_Server_getConfig w server, w)) st).

(** How far a call of [opcuaStartServer] got. *)
Inductive Started : Type :=
  | Returned (st : State)
  | InRunLoop (st : State).

(** [opcuaStartServer(port)] up to its run loop. *)
Definition opcuaStartServer (port : Z) (st : State) : Started :=
  if g_opcua_running st then
    Returned (log "OPC UA server already running. Ignoring start request." st)
  else
  let st := log "Starting OPC UA server on port" st in
  let st :=
    match g_opcua_server st with
    | Some old =>
        let st := log "Cleaning up previous OPC UA server instance" st in
        let st := call_ "UA_Server_delete" (fun w => UA_Server_delete w (Some old)) st in
        set_g_opcua_server None st
    | None => st
    end in
  let st := set_g_opcua_running false st in
  let st := set_g_namespace_index 1 st in
  let '(created, st) := call "UA_Server_new" UA_Server_new st in
  let st := set_g_opcua_server created st in
  match created with
  | None => Returned (log "Failed to create OPC UA server instance" st)
  | Some server =>
      let st := log "Configuring server with port" st in
      let '(cfg, st) :=
        call "UA_Server_getConfig" (fun w => (UA_Server_getConfig w server, w)) st in
      if negb cfg then
        let st := log "Failed to get server config" st in
        let st := call_ "UA_Server_delete" (fun w => UA_Server_delete w (Some server)) st in
        Returned (set_g_opcua_server None st)
      else
      let '(configRet, st) :=
        call "UA_ServerConfig_setMinimal"
          (fun w => UA_ServerConfig_setMinimal w server (port mod 2 ^ 16)) st in
      if negb (configRet =? UA_STATUSCODE_GOOD) then
        let st := log "Failed to configure server" st in
        let st := call_ "UA_Server_delete" (fun w => UA_Server_delete w (Some server)) st in
        Returned (set_g_opcua_server None st)
      else
      let st := log "Server configured successfully" st in
      let st := registerNamespace server st in
      let st := logOpen62541AbiInfo server st in
      let st := log "About to scan and create nodes..." st in
      let st := scanAndCreateNodes server st in
      let st := log "Node creation completed, setting running flag..." st in
      let st := set_g_opcua_running true st in
      let st := log "OPC UA server started successfully on port" st in
      let st := log "About to start UA_Server_run loop..." st in
      let '(retval, st) :=
        call "UA_Server_run_startup" (fun w => UA_Server_run_startup w server) st in
      if negb (retval =? UA_STATUSCODE_GOOD) then
        let st := log "OPC UA server startup failed" st in
        let st := call_ "UA_Server_delete" (fun w => UA_Server_delete w (Some server)) st in
        let st := set_g_opcua_server None st in
        Returned (set_g_opcua_running false st)
      else
        InRunLoop (log "OPC UA server startup completed, entering run loop..." st)
  end.

(** One pass through the body of [while (g_opcua_running)]. *)
Definition run_loop_body (st : State) : State :=
  let st :=
    call_ "UA_Server_run_iterate"
      (fun w => UA_Server_run_iterate w (g_opcua_server st)) st in
  usleep 50000 st.

(** What [opcuaStartServer] does after its loop has seen the flag cleared. *)
Definition opcuaStartServer_exit (st : State) : State :=
  let st := log "OPC UA server stopped" st in
  let st :=
    call_ "UA_Server_delete" (fun w => UA_Server_delete w (g_opcua_server st)) st in
  let st := set_g_opcua_server None st in
  set_g_opcua_running false st.
End Manifest.

(** The state of a freshly loaded process: no server, nothing registered,
    the id counter at its initialiser. *)
Definition initial_state {W Srv : Type} (w : W) (img : Image)
    (fs : gmap string buffer) (cells : gmap addr Z) : State W Srv :=
  {| world := w;
     machine := {| mem := cells; trace := [] |};
     image := img;
     files := fs;
     g_opcua_server := None;
     g_opcua_running := false;
     g_namespace_index := 1;
     g_node_list := [];
     g_node_count := 0;
     nextId := 4000000 |}.

(** ** A small executable stack

    Used to run the bridge on concrete inputs: one live server instance at a
    time, an address space that is a list of node ids and refuses
    duplicates, a namespace index fixed in advance. *)
Record Sim : Type := {
  sim_nodes : list UA_NodeId;
  sim_ns : Z;
  sim_instances : positive
}.

Definition UA_STATUSCODE_BADNODEIDUNKNOWN : UA_StatusCode := 0x80340000.

Definition sim_add (w : Sim) (id : UA_NodeId) : UA_StatusCode * Sim :=
  if bool_decide (id ∈ sim_nodes w) then (UA_STATUSCODE_BADNODEIDEXISTS, w)
  else (UA_STATUSCODE_GOOD,
        {| sim_nodes := id :: sim_nodes w; sim_ns := sim_ns w;
           sim_instances := sim_instances w |}).

Definition sim_clear (w : Sim) : Sim :=
  {| sim_nodes := []; sim_ns := sim_ns w; sim_instances := sim_instances w |}.

#[global] Instance sim_stack : Stack Sim positive := {
  UA_Server_new w :=
    (Some (sim_instances w),
     {| sim_nodes := []; sim_ns := sim_ns w;
        sim_instances := Pos.succ (sim_instances w) |});
  UA_Server_getConfig _ _ := true;
  UA_ServerConfig_setMinimal w _ _ := (UA_STATUSCODE_GOOD, w);
  UA_Server_addNamespace w _ _ := (sim_ns w, w);
  UA_Server_addObjectNode w _ id _ _ := sim_add w id;
  UA_Server_addVariableNode w _ id _ _ _ _ := sim_add w id;
  UA_Server_setNodeContext w _ _ _ := w;
  UA_Server_setVariableNode_valueCallback w _ _ := w;
  UA_Server_writeValue w _ id _ :=
    (if bool_decide (id ∈ sim_nodes w) then UA_STATUSCODE_GOOD
     else UA_STATUSCODE_BADNODEIDUNKNOWN, w);
  UA_Server_run_startup w _ := (UA_STATUSCODE_GOOD, w);
  UA_Server_run_iterate w _ := w;
  UA_Server_delete w _ := sim_clear w;
  malloc_OpcNodeInfo w := (true, w)
}.

Definition sim0 (ns : Z) : Sim :=
  {| sim_nodes := []; sim_ns := ns; sim_instances := 1 |}.

(** An image with no slot allocated. *)
Definition no_slots (size : Z) : Image :=
  {| BUFFER_SIZE := size;
     bool_input := ∅; bool_output := ∅; byte_input := ∅; byte_output := ∅;
     int_input := ∅; int_output := ∅; dint_input := ∅; dint_output := ∅;
     lint_input := ∅; lint_output := ∅; real_input := ∅; real_output := ∅;
     lreal_input := ∅; lreal_output := ∅; int_memory := ∅; dint_memory := ∅;
     lint_memory := ∅; real_memory := ∅; lreal_memory := ∅ |}.

(** A program with the output bit [%QX0.1] at cell 10, the input word
    [%IW5] at cell 11 and the memory word [%MW0] at cell 12. *)
Definition demo_image : Image :=
  {| BUFFER_SIZE := 1024;
     bool_input := ∅; bool_output := {[ (0, 1) := 10%positive ]};
     byte_input := ∅; byte_output := ∅;
     int_input := {[ 5 := 11%positive ]}; int_output := ∅;
     dint_input := ∅; dint_output := ∅;
     lint_input := ∅; lint_output := ∅; real_input := ∅; real_output := ∅;
     lreal_input := ∅; lreal_output := ∅;
     int_memory := {[ 0 := 12%positive ]}; dint_memory := ∅;
     lint_memory := ∅; real_memory := ∅; lreal_memory := ∅ |}.

Definition manifest_file (lines : list string) : gmap string buffer :=
  {[ "LOCATED_VARIABLES.h"%string := concat (map (fun l => lit l ++ ["010"%char]) lines) ]}.

(** ** Vocabulary of the properties *)

Definition is_lock_event (e : Event) : bool :=
  match e with
  | EvLock _ | EvUnlock _ => true
  | _ => false
  end.

Definition is_stack_call (e : Event) : bool :=
  match e with
  | EvStack _ => true
  | _ => false
  end.

(** Number of calls into the stack among the events. *)
Definition count_stack_calls (evs : list Event) : nat :=
  length (filter (fun e => is_stack_call e = true) evs).

(** No call into the stack happens while [l] is held; [held] tells whether
    [l] is held before the first event. *)
Fixpoint stack_outside (l : Mutex) (held : bool) (evs : list Event) : bool :=
  match evs with
  | [] => true
  | EvLock l' :: evs' =>
      stack_outside l (if decide (l' = l) then true else held) evs'
  | EvUnlock l' :: evs' =>
      stack_outside l (if decide (l' = l) then false else held) evs'
  | EvStack _ :: evs' => negb held && stack_outside l held evs'
  | _ :: evs' => stack_outside l held evs'
  end.



(** Number of commas in the argument text of a record: one less than its
    number of fields. *)
Definition count_commas (s : buffer) : nat :=
  length (filter (fun c => c = ","%char) s).


(** The events [after] has recorded beyond those of [before]. *)
Definition events_since {W Srv} (before after : State W Srv) : list Event :=
  drop (length (trace (machine before))) (trace (machine after)).

(** The conditions under which the specification has a location rejected,
    read off the token the way the resolver reads it: width [X] with a
    missing bit or a bit outside [0,8), a negative index, or area [M] with
    width [X] or [B]. *)
Definition spec_out_of_domain (location : buffer) : bool :=
  let area := char_at location 1 in
  let width := char_at location 2 in
  let rest := drop 3 location in
  (Ascii.eqb width "X" &&
   match strchr rest "." with
   | None => true
   | Some dot =>
       let bit := atoi (drop (S dot) rest) in (bit <? 0) || (8 <=? bit)
   end)
  || (atoi rest <? 0)
  || (Ascii.eqb area "M" && (Ascii.eqb width "X" || Ascii.eqb width "B")).

(** Every element of the node list carries a pointer and a type. *)
Definition nodes_guarded {W Srv} (st : State W Srv) : Prop :=
  Forall (fun info => is_Some (OpcNodeInfo.variablePtr info) /\
                      is_Some (OpcNodeInfo.dataType info)) (g_node_list st).

(** The numeric ids of the registered nodes, newest first. *)
Definition registered_ids {W Srv} (st : State W Srv) : list Z :=
  map (fun info => numeric (OpcNodeInfo.nodeId info)) (g_node_list st).


(** The state a call of [opcuaStartServer] leaves behind, returned or
    waiting in its run loop. *)
Definition state_of {W Srv} (r : @Started W Srv) : State W Srv :=
  match r with
  | Returned st => st
  | InRunLoop st => st
  end.

(** The part of the state the node registry lives in: the list and its
    counter, the id counter, the glue tables and the files. *)
Definition registry {W Srv} (st : State W Srv)
    : list OpcNodeInfo.t * Z * Z * Image * gmap string buffer :=
  (g_node_list st, g_node_count st, nextId st, image st, files st).

(** Number of lines the next scan of the manifest will read. *)
Definition manifest_line_count {W Srv} (st : State W Srv) : nat :=
  match fopen_first (files st) hdrCandidates with
  | Some content => length (file_lines content)
  | None => 0
  end.


Section Reachability.
Context {W Srv : Type} {stack : Stack W Srv}.

(** The entry points of the bridge, as transitions of its state; the scan
    engine and clients may change memory in between. *)
Inductive bridge_step : State W Srv -> State W Srv -> Prop :=
  | step_start port st :
      bridge_step st (state_of (opcuaStartServer port st))
  | step_iterate st :
      bridge_step st (run_loop_body st)
  | step_exit st :
      bridge_step st (opcuaStartServer_exit st)
  | step_stop_signal st :
      g_opcua_running st = true ->
      bridge_step st (stopOpcua_signal st)
  | step_stop_cleanup st :
      bridge_step st (stopOpcua_cleanup st)
  | step_publish st :
      bridge_step st (opcuaUpdateNodeValues st)
  | step_memory st f :
      bridge_step st (on_machine f st).

(** States the process can be in, from a state with an empty node list. *)
Inductive reachable : State W Srv -> Prop :=
  | reachable_boot w img fs cells : reachable (initial_state w img fs cells)
  | reachable_step st st' : reachable st -> bridge_step st st' -> reachable st'.
End Reachability.

Section ScanInvariantDef.
Context {W Srv : Type} {stack : Stack W Srv}.

(** A family of properties of the registry, indexed by the number of
    manifest lines still to be read, that every line of the scan carries
    one step down. *)
Record ScanInvariant (Q : nat -> State W Srv -> Prop) : Prop := {
  inv_respects : forall k st st', registry st = registry st' -> Q k st -> Q k st';
  inv_weaken : forall k st, Q (S k) st -> Q k st;
  inv_step : forall k (server : Srv) folder sc line,
      Q (S k) (scan_state sc) ->
      Q k (scan_state (scan_line server folder sc line))
}.
End ScanInvariantDef.

(** ** Concrete inputs *)

Definition boot (ns : Z) (fs : gmap string buffer) : State Sim positive :=
  initial_state (sim0 ns) demo_image fs ∅.


Definition uint16_binding : OpcVarBinding.t :=
  OpcVarBinding.mk (Some 11%positive) (Some UA_TYPES_UINT16) (Some 21%positive).

Definition uint16_node : OpcNodeInfo.t :=
  OpcNodeInfo.mk (UA_NODEID_NUMERIC 1 4000000) (Some 11%positive) (Some UA_TYPES_UINT16).

(** Image cell 11 and shadow cell 21, both holding 0xBEEF. *)
Definition beef_cells : Machine :=
  machine0 [(11%positive, 0xBEEF); (21%positive, 0xBEEF)].

Definition five_field_manifest : gmap string buffer :=
  manifest_file ["__LOCATED_VAR(UINT,__IW5,I,W,5)"]%string.

Definition bit_manifest : gmap string buffer :=
  manifest_file ["__LOCATED_VAR(BOOL,__QX0_1,Q,X,0,1)"]%string.

(** [start(4840); stop(); start(4840)]: the first server reaches its run
    loop, [stopOpcua] clears the flag and waits, the loop thread leaves
    [opcuaStartServer], [stopOpcua] finishes, and the server is started
    again.  The result is the state in the first run loop and the state
    after the second start. *)
Definition start_stop_start (st : State Sim positive)
    : State Sim positive * State Sim positive :=
  let st1 := state_of (opcuaStartServer 4840 st) in
  let st2 := stopOpcua_signal st1 in
  let st3 := opcuaStartServer_exit st2 in
  let st4 := stopOpcua_cleanup st3 in
  (st1, state_of (opcuaStartServer 4840 st4)).

(** [beef_cells] after a write of 7 to image cell 11 and shadow cell 21. *)
Definition beef_cells_written : Machine :=
  {| mem := <[21%positive := 7]> (<[11%positive := 7]> (mem beef_cells));
     trace := [EvLock bufferLock; EvLog "OPCUA WRITE cb";
               EvStore 11%positive 7; EvStore 21%positive 7;
               EvUnlock bufferLock] |}.

(** The state in the run loop after a first start on [bit_manifest]. *)
Definition running_state : State Sim positive :=
  state_of (opcuaStartServer 4840 (boot 1 bit_manifest)).



(** The single line of [bit_manifest] as [fgets] delivers it. *)
Definition bit_line : buffer :=
  lit "__LOCATED_VAR(BOOL,__QX0_1,Q,X,0,1)" ++ ["010"%char].

(** One restart: the server is started, [stopOpcua] clears the flag, and
    the run loop is left. *)
Definition restart_cycle (st : State Sim positive) : State Sim positive :=
  opcuaStartServer_exit (stopOpcua_signal (state_of (opcuaStartServer 4840 st))).

(** ** Further vocabulary *)

(** The machine a handler leaves behind, whether it returned or not. *)
Definition final_machine {A : Type} (o : Outcome A) : Machine :=
  match o with
  | Returns _ m => m
  | Fault m => m
  end.

(** The events a handler adds to the trace of [m]. *)
Definition new_events {A : Type} (m : Machine) (o : Outcome A) : list Event :=
  drop (length (trace m)) (trace (final_machine o)).

(** A binding whose image pointer is NULL. *)
Definition unbound_binding : OpcVarBinding.t :=
  OpcVarBinding.mk None (Some UA_TYPES_UINT16) (Some 21%positive).

(** The lifecycle globals: the server handle and the running flag. *)
Definition lifecycle {W Srv} (st : State W Srv) : option Srv * bool :=
  (g_opcua_server st, g_opcua_running st).

(** The UA type that goes with the width letter of a location. *)
Definition width_type (type : ascii) : option UA_DataType :=
  if Ascii.eqb type "X" then Some UA_TYPES_BOOLEAN
  else if Ascii.eqb type "B" then Some UA_TYPES_BYTE
  else if Ascii.eqb type "W" then Some UA_TYPES_UINT16
  else if Ascii.eqb type "D" then Some UA_TYPES_UINT32
  else if Ascii.eqb type "L" then Some UA_TYPES_UINT64
  else if Ascii.eqb type "R" then Some UA_TYPES_FLOAT
  else if Ascii.eqb type "F" then Some UA_TYPES_DOUBLE
  else None.

(** The entry of the glue tables a location names by area letter, width
    letter and indices. *)
Definition glue_entry (img : Image) (area type : ascii) (index1 index2 : Z)
    : option addr :=
  if Ascii.eqb area "I" then
    if Ascii.eqb type "X" then bool_input img !! (index1, index2)
    else if Ascii.eqb type "B" then byte_input img !! index1
    else if Ascii.eqb type "W" then int_input img !! index1
    else if Ascii.eqb type "D" then dint_input img !! index1
    else if Ascii.eqb type "L" then lint_input img !! index1
    else if Ascii.eqb type "R" then real_input img !! index1
    else if Ascii.eqb type "F" then lreal_input img !! index1
    else None
  else if Ascii.eqb area "Q" then
    if Ascii.eqb type "X" then bool_output img !! (index1, index2)
    else if Ascii.eqb type "B" then byte_output img !! index1
    else if Ascii.eqb type "W" then int_output img !! index1
    else if Ascii.eqb type "D" then dint_output img !! index1
    else if Ascii.eqb type "L" then lint_output img !! index1
    else if Ascii.eqb type "R" then real_output img !! index1
    else if Ascii.eqb type "F" then lreal_output img !! index1
    else None
  else if Ascii.eqb area "M" then
    if Ascii.eqb type "W" then int_memory img !! index1
    else if Ascii.eqb type "D" then dint_memory img !! index1
    else if Ascii.eqb type "L" then lint_memory img !! index1
    else if Ascii.eqb type "R" then real_memory img !! index1
    else if Ascii.eqb type "F" then lreal_memory img !! index1
    else None
  else None.

(** The bit number of a location: the integer after the first dot of the
    text that follows the two letters; [-1], the initial value of [index2],
    when there is no dot. *)
Definition bit_number (location : buffer) : Z :=
  match strchr (drop 3 location) "." with
  | Some dot => atoi (drop (S dot) (drop 3 location))
  | None => -1
  end.

(** * Properties *)

(** ** C library functions on examples *)

Example atoi_plain : atoi (lit "42") = 42.
Proof. reflexivity. Qed.

Example atoi_negative : atoi (lit " -17,") = -17.
Proof. reflexivity. Qed.

Example atoi_no_digits : atoi (lit "x1") = 0.
Proof. reflexivity. Qed.

Example fmt_d_negative : fmt_d (-1) = lit "-1".
Proof. reflexivity. Qed.

Example tokenize_fields :
  tokenize 8 (lit "UINT,__IW5,I,W,5") =
  [lit "UINT"; lit "__IW5"; lit "I"; lit "W"; lit "5"].
Proof. reflexivity. Qed.

Example tokenize_empty_fields : tokenize 8 (lit ",a,,b,") = [lit "a"; lit "b"].
Proof. reflexivity. Qed.


(** ** Reading the manifest line by line *)

Lemma fgets_chunk_app (room : nat) (stream : buffer) :
  fst (fgets_chunk room stream) ++ snd (fgets_chunk room stream) = stream.
Proof.
  revert stream. induction room as [|room IH]; intros [|c s]; try reflexivity.
  cbn [fgets_chunk]. destruct (Ascii.eqb c "010"); [reflexivity|].
  specialize (IH s). destruct (fgets_chunk room s) as [l r]. cbn [fst snd] in *.
  simpl. rewrite IH. reflexivity.
Qed.

Lemma fgets_chunk_progress (room : nat) (c : ascii) (s : buffer) :
  (length (snd (fgets_chunk (S room) (c :: s))) <= length s)%nat.
Proof.
  cbn [fgets_chunk]. destruct (Ascii.eqb c "010"); [reflexivity|].
  pose proof (fgets_chunk_app room s) as H.
  destruct (fgets_chunk room s) as [l r]. cbn [fst snd] in *.
  rewrite <- H, length_app. lia.
Qed.

Lemma read_lines_concat (fuel : nat) (stream : buffer) :
  (length stream <= fuel)%nat -> concat (read_lines fuel stream) = stream.
Proof.
  revert stream. induction fuel as [|fuel IH]; intros [|c s] Hlen;
    try reflexivity; cbn [length] in Hlen; [lia|].
  cbn [read_lines fgets]. change (1024 - 1)%nat with (S 1022).
  pose proof (fgets_chunk_app (S 1022) (c :: s)) as Happ.
  pose proof (fgets_chunk_progress 1022 c s) as Hprog.
  destruct (fgets_chunk (S 1022) (c :: s)) as [line rest]. cbn [fst snd] in *.
  cbn [concat]. rewrite IH by lia. exact Happ.
Qed.

(** The loop over [fgets] reads the whole file: the lines it delivers, put
    end to end, are the content. *)
Lemma file_lines_concat (content : buffer) : concat (file_lines content) = content.
Proof. apply read_lines_concat. reflexivity. Qed.

(** ** Location resolver *)



Section ManifestSkips.
Context {W Srv : Type} {stack : Stack W Srv}.


End ManifestSkips.


Example reject_IX0_8 :
  spec_out_of_domain (lit "%IX0.8") = true /\
  resolvePointerFromLocation demo_image (lit "%IX0.8") = None.
Proof. split; reflexivity. Qed.

Example reject_MW_minus_1 :
  spec_out_of_domain (lit "%MW-1") = true /\
  resolvePointerFromLocation demo_image (lit "%MW-1") = None.
Proof. split; reflexivity. Qed.

Example reject_MB0 :
  spec_out_of_domain (lit "%MB0") = true /\
  resolvePointerFromLocation demo_image (lit "%MB0") = None.
Proof. split; reflexivity. Qed.

Example resolve_QX0_1 :
  resolvePointerFromLocation demo_image (lit "%QX0.1") = Some (10%positive, UA_TYPES_BOOLEAN).
Proof. reflexivity. Qed.

Example resolve_IW5 :
  resolvePointerFromLocation demo_image (lit "%IW5") = Some (11%positive, UA_TYPES_UINT16).
Proof. reflexivity. Qed.

(** Startup goes on past rejected records: of these four, only the last
    yields a node. *)
Example startup_continues_after_rejections :
  let st :=
    state_of (opcuaStartServer 4840
      (boot 1 (manifest_file
         ["__LOCATED_VAR(BOOL,__IX0_8,I,X,0,8)";
          "__LOCATED_VAR(INT,__MW,M,W,-1,0)";
          "__LOCATED_VAR(BYTE,__MB0,M,B,0,0)";
          "__LOCATED_VAR(BOOL,__QX0_1,Q,X,0,1)"]%string))) in
  g_opcua_running st = true /\ registered_ids st = [4000000] /\ nextId st = 4000001.
Proof. vm_compute. repeat split; reflexivity. Qed.

(** ** Write handlers *)



Ltac unfold_machine :=
  unfold pthread_mutex_lock, pthread_mutex_unlock, openplc_log, emit,
    bind, act, ret, assign in *;
  simpl; rewrite <- ?app_assoc; simpl.







(** ** Read handler *)

(** For a complete binding of one of the eleven scalar types the handler
    loads the shadow cell, and only it, takes no lock, fills the variant,
    and then reports that the data value has no value. *)
Lemma readVariableValue_shadow (p : option addr) (t : UA_DataType) (s : addr)
    (dv : UA_DataValue) (m : Machine) :
  handled t = true ->
  readVariableValue (Some (OpcVarBinding.mk p (Some t) (Some s))) (Some dv) m =
  Returns
    (UA_STATUSCODE_GOOD,
     Some {| value := UA_Variant_setScalarCopy (as_type t (cell m s)) t;
             hasValue := false;
             hasStatus := true;
             status := UA_STATUSCODE_GOOD;
             hasSourceTimestamp := false |})
    {| mem := mem m; trace := trace m ++ [EvLoad s] |}.
Proof.
  intros Hh. unfold readVariableValue. simpl. rewrite Hh.
  unfold bind, ret, deref. simpl. reflexivity.
Qed.



(** ** What the operations leave alone *)

Section Frame.
Context {W Srv : Type} {stack : Stack W Srv}.
Implicit Types st : State W Srv.

Lemma call_eq {A} (name : string) (f : W -> A * W) st :
  call name f st =
  (fst (f (world st)),
   set_world (snd (f (world st))) (on_machine (emit (EvStack name)) st)).
Proof. unfold call. destruct (f (world st)); reflexivity. Qed.

Lemma malloc_eq st :
  malloc st =
  (fst (malloc_OpcNodeInfo (world st)),
   set_world (snd (malloc_OpcNodeInfo (world st))) st).
Proof. unfold malloc. destruct (malloc_OpcNodeInfo (world st)); reflexivity. Qed.

Lemma registry_on_machine f st : registry (on_machine f st) = registry st.
Proof. reflexivity. Qed.

Lemma registry_log msg st : registry (log msg st) = registry st.
Proof. reflexivity. Qed.

Lemma registry_lock l st : registry (lock l st) = registry st.
Proof. reflexivity. Qed.

Lemma registry_unlock l st : registry (unlock l st) = registry st.
Proof. reflexivity. Qed.

Lemma registry_usleep n st : registry (usleep n st) = registry st.
Proof. reflexivity. Qed.

Lemma registry_set_world w st : registry (set_world w st) = registry st.
Proof. reflexivity. Qed.

Lemma registry_set_server s st : registry (set_g_opcua_server s st) = registry st.
Proof. reflexivity. Qed.

Lemma registry_set_running b st : registry (set_g_opcua_running b st) = registry st.
Proof. reflexivity. Qed.

Lemma registry_set_namespace i st : registry (set_g_namespace_index i st) = registry st.
Proof. reflexivity. Qed.

Lemma registry_call_ name (f : W -> W) st : registry (call_ name f st) = registry st.
Proof. reflexivity. Qed.

Lemma registry_call {A} name (f : W -> A * W) st :
  registry (snd (call name f st)) = registry st.
Proof. rewrite call_eq. reflexivity. Qed.

Lemma registry_add_folder (server : Srv) id parent name st :
  registry (add_folder server id parent name st) = registry st.
Proof.
  unfold add_folder. rewrite call_eq.
  destruct (negb _ && negb _); reflexivity.
Qed.

Lemma registry_createFolderStructure (server : Srv) st :
  registry (createFolderStructure server st) = registry st.
Proof.
  unfold createFolderStructure. cbv zeta.
  rewrite registry_log, !registry_add_folder, registry_log. reflexivity.
Qed.

Lemma registry_registerNamespace (server : Srv) st :
  registry (registerNamespace server st) = registry st.
Proof.
  unfold registerNamespace. rewrite call_eq.
  destruct (_ =? 0); reflexivity.
Qed.

Lemma registry_logOpen62541AbiInfo (server : Srv) st :
  registry (logOpen62541AbiInfo server st) = registry st.
Proof. unfold logOpen62541AbiInfo. rewrite registry_call. reflexivity. Qed.

Lemma registry_update_node (server : Srv) it st :
  registry (update_node server it st) = registry st.
Proof.
  unfold update_node.
  destruct (OpcNodeInfo.variablePtr it) as [p|]; [|reflexivity].
  destruct (OpcNodeInfo.dataType it) as [t|]; [|reflexivity].
  destruct (handled t); rewrite call_eq; destruct (negb _); reflexivity.
Qed.

Lemma registry_foldl_update_node (server : Srv) nodes st :
  registry (foldl (fun st it => update_node server it st) st nodes) = registry st.
Proof.
  revert st. induction nodes as [|it nodes IH]; intros st; simpl; [reflexivity|].
  rewrite IH. apply registry_update_node.
Qed.

Lemma registry_opcuaUpdateNodeValues st :
  registry (opcuaUpdateNodeValues st) = registry st.
Proof.
  unfold opcuaUpdateNodeValues.
  destruct (g_opcua_server st) as [server|]; [|reflexivity].
  destruct (g_opcua_running st); [|reflexivity].
  rewrite registry_unlock, registry_foldl_update_node. reflexivity.
Qed.

Lemma registry_stopOpcua_signal st : registry (stopOpcua_signal st) = registry st.
Proof. reflexivity. Qed.

Lemma registry_stopOpcua_cleanup st : registry (stopOpcua_cleanup st) = registry st.
Proof. unfold stopOpcua_cleanup. destruct (g_opcua_server st); reflexivity. Qed.

Lemma registry_stopOpcua st : registry (stopOpcua st) = registry st.
Proof.
  unfold stopOpcua. destruct (g_opcua_running st); [|reflexivity].
  rewrite registry_stopOpcua_cleanup. reflexivity.
Qed.

Lemma registry_run_loop_body st : registry (run_loop_body st) = registry st.
Proof. reflexivity. Qed.

Lemma registry_opcuaStartServer_exit st :
  registry (opcuaStartServer_exit st) = registry st.
Proof. reflexivity. Qed.

(** [addVariableNode] either leaves the registry alone or pushes exactly the
    node it was asked to add. *)
Lemma addVariableNode_effect (server : Srv) name parent id ptr ty st :
  let st' := addVariableNode server name parent id ptr ty st in
  registry st' = registry st \/
  (is_Some ptr /\ is_Some ty /\
   registry st' =
   (OpcNodeInfo.mk id ptr ty :: g_node_list st, g_node_count st + 1,
    nextId st, image st, files st)).
Proof.
  unfold addVariableNode.
  destruct ptr as [p|]; [|left; reflexivity].
  destruct ty as [t|]; [|left; reflexivity].
  rewrite call_eq. cbv zeta.
  destruct (_ =? UA_STATUSCODE_GOOD).
  - rewrite malloc_eq. destruct (fst (malloc_OpcNodeInfo _)).
    + right. split; [eexists; reflexivity|]. split; [eexists; reflexivity|].
      reflexivity.
    + left. reflexivity.
  - destruct (_ =? UA_STATUSCODE_BADNODEIDEXISTS); left; reflexivity.
Qed.
End Frame.

(** ** Invariants of the manifest scan and of the lifecycle *)

Section ScanInvariants.
Context {W Srv : Type} {stack : Stack W Srv}.
Implicit Types st : State W Srv.

(** A line either leaves the registry alone or consumes one id; with the
    id consumed, the node carrying it is pushed or not. *)
Lemma scan_line_effect (server : Srv) (folder : UA_NodeId) (sc : Scan) (line : buffer) :
  let st := scan_state sc in
  let st' := scan_state (scan_line server folder sc line) in
  registry st' = registry st \/
  registry st' =
    (g_node_list st, g_node_count st, wrap_uint32 (nextId st + 1),
     image st, files st) \/
  exists ptr ty,
    registry st' =
      (OpcNodeInfo.mk (UA_NODEID_NUMERIC (g_namespace_index st) (nextId st))
         (Some ptr) (Some ty) :: g_node_list st,
       g_node_count st + 1, wrap_uint32 (nextId st + 1), image st, files st).
Proof.
  cbv zeta. unfold scan_line.
  destruct (parse_located_var line) as [| |dispName location];
    [left; reflexivity | left; reflexivity |].
  destruct (resolvePointerFromLocation _ location) as [[ptr ty]|];
    [|left; reflexivity].
  cbv zeta. cbn [scan_state].
  match goal with
  | |- context [addVariableNode ?s ?n ?p ?i ?a ?b ?x] =>
      destruct (addVariableNode_effect s n p i a b x) as [H|(_ & _ & H)]
  end; rewrite H.
  - right. left. reflexivity.
  - right. right. exists ptr, ty. reflexivity.
Qed.

Section WithInvariant.
Variable Q : nat -> State W Srv -> Prop.
Hypothesis HQ : ScanInvariant Q.

Lemma inv_weaken_all k st : Q k st -> Q 0%nat st.
Proof.
  induction k as [|k IH]; [tauto|].
  intros H. apply IH. apply (inv_weaken Q HQ). exact H.
Qed.

Lemma inv_frame k st st' : registry st' = registry st -> Q k st -> Q k st'.
Proof. intros H. apply (inv_respects Q HQ). symmetry. exact H. Qed.

Lemma foldl_scan_line_invariant (server : Srv) folder lines sc :
  Q (length lines) (scan_state sc) ->
  Q 0%nat (scan_state (foldl (scan_line server folder) sc lines)).
Proof.
  revert sc. induction lines as [|line lines IH]; intros sc H; simpl; [exact H|].
  apply IH. apply (inv_step Q HQ). exact H.
Qed.

Lemma manifest_line_count_frame st st' :
  registry st' = registry st -> manifest_line_count st' = manifest_line_count st.
Proof.
  unfold registry, manifest_line_count. intros [= _ _ _ _ ->]. reflexivity.
Qed.

Lemma createNodes_invariant (server : Srv) st :
  Q (manifest_line_count st) st ->
  Q 0%nat (snd (createNodesFromLocatedVariables server st)).
Proof.
  intros H. unfold createNodesFromLocatedVariables, createProgramVariablesFolder.
  cbv zeta.
  set (st1 := add_folder server 2100 _ "ProgramVariables" st).
  assert (H1 : registry st1 = registry st) by apply registry_add_folder.
  assert (Hf : files st1 = files st) by (unfold registry in H1; congruence).
  unfold manifest_line_count in H. rewrite <- Hf in H.
  destruct (fopen_first (files st1) hdrCandidates) as [content|].
  - set (sc := foldl _ _ _).
    assert (Hsc : Q 0%nat (scan_state sc)).
    { apply foldl_scan_line_invariant. simpl. eapply inv_frame; eassumption. }
    destruct (added sc =? 0); simpl; [|exact Hsc].
    eapply inv_frame; [|exact Hsc]. apply registry_log.
  - simpl. eapply inv_frame; [|exact H].
    rewrite registry_log. exact H1.
Qed.

Lemma scanAndCreateNodes_invariant (server : Srv) st :
  Q (manifest_line_count st) st ->
  Q 0%nat (scanAndCreateNodes server st).
Proof.
  intros H. unfold scanAndCreateNodes. cbv zeta.
  set (st1 := createFolderStructure server _).
  assert (H1 : registry st1 = registry st).
  { unfold st1. rewrite registry_createFolderStructure. apply registry_log. }
  pose proof (createNodes_invariant server st1) as Hc.
  destruct (createNodesFromLocatedVariables server st1) as [n st2]. simpl in Hc.
  eapply inv_frame; [apply registry_log|].
  apply Hc. rewrite (manifest_line_count_frame _ _ H1).
  eapply inv_frame; eassumption.
Qed.

Lemma opcuaStartServer_invariant (port : Z) st :
  Q (manifest_line_count st) st ->
  Q 0%nat (state_of (opcuaStartServer port st)).
Proof.
  intros H. pose proof (inv_weaken_all _ _ H) as H0.
  unfold opcuaStartServer.
  destruct (g_opcua_running st); [exact (inv_frame _ _ _ (registry_log _ _) H0)|].
  cbv zeta.
  set (st1 := set_g_namespace_index 1 _).
  assert (H1 : registry st1 = registry st).
  { unfold st1. destruct (g_opcua_server (log _ st)); reflexivity. }
  clearbody st1.
  rewrite call_eq. cbv iota beta.
  destruct (fst (UA_Server_new (world st1))) as [server|]; cbn [state_of];
    [|eapply inv_frame; [|exact H0]; exact H1].
  rewrite call_eq. cbv iota beta.
  destruct (negb _); cbn [state_of]; [eapply inv_frame; [|exact H0]; exact H1|].
  rewrite call_eq. cbv iota beta.
  destruct (negb _); cbn [state_of]; [eapply inv_frame; [|exact H0]; exact H1|].
  set (st2 := log "About to scan and create nodes..." _).
  assert (H2 : registry st2 = registry st).
  { unfold st2. rewrite registry_log, registry_logOpen62541AbiInfo,
      registry_registerNamespace. exact H1. }
  clearbody st2.
  assert (H3 : Q 0%nat (scanAndCreateNodes server st2)).
  { apply scanAndCreateNodes_invariant.
    rewrite (manifest_line_count_frame _ _ H2).
    eapply inv_frame; eassumption. }
  rewrite call_eq. cbv iota beta.
  destruct (negb _); cbn [state_of]; (eapply inv_frame; [|exact H3]); reflexivity.
Qed.

(** Every entry point of the bridge carries the invariant across. *)
Lemma bridge_step_invariant st st' :
  bridge_step st st' -> Q (manifest_line_count st) st -> Q 0%nat st'.
Proof.
  intros Hstep H. pose proof (inv_weaken_all _ _ H) as H0.
  destruct Hstep.
  - apply opcuaStartServer_invariant. exact H.
  - exact (inv_frame _ _ _ (registry_run_loop_body _) H0).
  - exact (inv_frame _ _ _ (registry_opcuaStartServer_exit _) H0).
  - exact (inv_frame _ _ _ (registry_stopOpcua_signal _) H0).
  - exact (inv_frame _ _ _ (registry_stopOpcua_cleanup _) H0).
  - exact (inv_frame _ _ _ (registry_opcuaUpdateNodeValues _) H0).
  - exact (inv_frame _ _ _ (registry_on_machine _ _) H0).
Qed.
End WithInvariant.
End ScanInvariants.

(** ** The node list only grows, and only by guarded nodes *)

Section Registry.
Context {W Srv : Type} {stack : Stack W Srv}.
Implicit Types st : State W Srv.

Lemma registry_node_list st st' :
  registry st = registry st' -> g_node_list st = g_node_list st'.
Proof. unfold registry. congruence. Qed.


Lemma registry_fields st l c n i f :
  registry st = (l, c, n, i, f) ->
  g_node_list st = l /\ g_node_count st = c /\ nextId st = n /\
  image st = i /\ files st = f.
Proof. unfold registry. intros [= -> -> -> -> ->]. repeat split. Qed.

Lemma nodes_guarded_invariant :
  ScanInvariant (fun (_ : nat) (st : State W Srv) => nodes_guarded st).
Proof.
  split.
  - intros _ st st' H. unfold nodes_guarded.
    rewrite (registry_node_list _ _ H). tauto.
  - tauto.
  - intros _ server folder sc line H. unfold nodes_guarded in *.
    destruct (scan_line_effect server folder sc line) as [E|[E|(ptr & ty & E)]];
      apply registry_fields in E as (E & _); rewrite E; try exact H.
    constructor; [|exact H]. simpl. split; eexists; reflexivity.
Qed.

Lemma bridge_step_nodes_guarded st st' :
  bridge_step st st' -> nodes_guarded st -> nodes_guarded st'.
Proof.
  intros Hstep H.
  exact (bridge_step_invariant _ nodes_guarded_invariant st st' Hstep H).
Qed.

Lemma reachable_nodes_guarded st : reachable st -> nodes_guarded st.
Proof.
  induction 1 as [w img fs cells|st st' _ IH Hstep].
  - constructor.
  - eapply bridge_step_nodes_guarded; eassumption.
Qed.



Lemma addVariableNode_null_pointer (server : Srv) name parent id ty st :
  addVariableNode server name parent id None ty st = st.
Proof. reflexivity. Qed.

Lemma addVariableNode_null_type (server : Srv) name parent id ptr st :
  addVariableNode server name parent id ptr None st = st.
Proof. unfold addVariableNode. destruct ptr; reflexivity. Qed.
End Registry.

Lemma onVariableValueWrite_returns (nodeContext : option OpcNodeInfo.t)
    (data : option UA_DataValue) (m : Machine) :
  exists m', onVariableValueWrite nodeContext data m = Returns tt m'.
Proof.
  unfold onVariableValueWrite.
  destruct nodeContext as [info|]; [|eexists; reflexivity].
  destruct data as [d|]; [|eexists; reflexivity].
  destruct (negb (hasValue d)); [eexists; reflexivity|].
  destruct (OpcNodeInfo.variablePtr info) as [p|]; [|eexists; reflexivity].
  destruct (OpcNodeInfo.dataType info) as [t|]; [|eexists; reflexivity].
  destruct (variant_scalar (value d)) as [[tv z]|]; [|eexists; reflexivity].
  destruct (negb _); [eexists; reflexivity|].
  destruct (handled t); eexists; reflexivity.
Qed.

Lemma onVariableValueWrite_null (nodeContext : option OpcNodeInfo.t)
    (data : option UA_DataValue) (m : Machine) :
  match nodeContext with
  | None => True
  | Some info =>
      OpcNodeInfo.variablePtr info = None \/ OpcNodeInfo.dataType info = None
  end ->
  onVariableValueWrite nodeContext data m = Returns tt m.
Proof.
  unfold onVariableValueWrite.
  destruct nodeContext as [info|]; [|reflexivity].
  destruct data as [d|]; [|reflexivity].
  destruct (negb (hasValue d)); [reflexivity|].
  intros [-> | ->]; [reflexivity|].
  destruct (OpcNodeInfo.variablePtr info); reflexivity.
Qed.

(** What the installed callback does with a write of the node's own type. *)
Lemma onVariableValueWrite_applies (id : UA_NodeId) (a : addr) (t : UA_DataType)
    (z : Z) (m : Machine) :
  handled t = true ->
  onVariableValueWrite (Some (OpcNodeInfo.mk id (Some a) (Some t)))
    (Some (scalar_value t z)) m =
  Returns tt
    {| mem := <[a := as_type t z]> (mem m);
       trace := trace m ++
                [EvLock bufferLock; EvStore a (as_type t z); EvUnlock bufferLock] |}.
Proof.
  intros Hh. unfold onVariableValueWrite. simpl.
  rewrite bool_decide_eq_true_2 by reflexivity. simpl. rewrite Hh.
  unfold_machine. reflexivity.
Qed.

(** C9: in every state the bridge can reach, each element of the node list
    carries a non-NULL pointer and a non-NULL type ([addVariableNode] returns
    at once when either is NULL); and the installed write callback always
    returns, never dereferencing NULL, leaving memory and trace as they were
    when the node context, its pointer or its type is NULL. *)
Theorem C9_nodes_guarded_and_write_callback_safe
    {W Srv : Type} {stack : Stack W Srv} (st : State W Srv)
    (nodeContext : option OpcNodeInfo.t) (data : option UA_DataValue) (m : Machine) :
  reachable st ->
  nodes_guarded st /\
  (forall (server : Srv) name parent id ptr ty,
      addVariableNode server name parent id None ty st = st /\
      addVariableNode server name parent id ptr None st = st) /\
  (exists m', onVariableValueWrite nodeContext data m = Returns tt m') /\
  (match nodeContext with
   | None => True
   | Some info =>
       OpcNodeInfo.variablePtr info = None \/ OpcNodeInfo.dataType info = None
   end ->
   onVariableValueWrite nodeContext data m = Returns tt m).
Proof.
  intros Hreach. split; [apply reachable_nodes_guarded; exact Hreach|].
  split; [intros; split;
          [apply addVariableNode_null_pointer | apply addVariableNode_null_type]|].
  split; [apply onVariableValueWrite_returns|].
  apply onVariableValueWrite_null.
Qed.

Lemma C9_witness :
  reachable running_state /\
  nodes_guarded running_state /\
  (forall (server : positive) name parent id ptr ty,
      addVariableNode server name parent id None ty running_state = running_state /\
      addVariableNode server name parent id ptr None running_state = running_state) /\
  (exists m', onVariableValueWrite None (Some (scalar_value UA_TYPES_UINT16 7))
                beef_cells = Returns tt m') /\
  (True ->
   onVariableValueWrite None (Some (scalar_value UA_TYPES_UINT16 7)) beef_cells =
   Returns tt beef_cells).
Proof.
  assert (H : reachable running_state).
  { unfold running_state, boot.
    eapply reachable_step; [apply reachable_boot | apply step_start]. }
  split; [exact H|].
  exact (C9_nodes_guarded_and_write_callback_safe running_state None
           (Some (scalar_value UA_TYPES_UINT16 7)) beef_cells H).
Defined.

(** ** Manifest records, namespace registration, restart *)

Lemma count_commas_cons (c : ascii) (s : buffer) :
  count_commas (c :: s) =
  ((if Ascii.eqb "," c then 1 else 0) + count_commas s)%nat.
Proof.
  unfold count_commas. rewrite filter_cons.
  destruct (Ascii.eqb_spec "," c) as [<-|Hne].
  - rewrite decide_True by reflexivity. reflexivity.
  - rewrite decide_False by congruence. reflexivity.
Qed.

Lemma skip_while_commas (s : buffer) :
  (count_commas (skip_while (Ascii.eqb ",") s) <= count_commas s)%nat.
Proof.
  induction s as [|c s IH]; cbn [skip_while]; [lia|].
  destruct (Ascii.eqb "," c) eqn:E.
  - rewrite count_commas_cons, E. lia.
  - lia.
Qed.

Lemma span_until_commas (s : buffer) :
  match snd (span_until (Ascii.eqb ",") s) with
  | Some rest => (S (count_commas rest) <= count_commas s)%nat
  | None => True
  end.
Proof.
  induction s as [|c s IH]; cbn [span_until snd]; [exact I|].
  destruct (Ascii.eqb "," c) eqn:E; cbn [snd].
  - rewrite count_commas_cons, E. lia.
  - destruct (span_until (Ascii.eqb ",") s) as [tok [rest|]]; cbn [snd] in *;
      [|exact I].
    rewrite count_commas_cons, E. lia.
Qed.

Lemma tokenize_nil (room : nat) : tokenize room [] = [].
Proof. destruct room; reflexivity. Qed.

(** [strtok_r] yields at most one token more than there are commas. *)
Lemma tokenize_length (room : nat) (s : buffer) :
  (length (tokenize room s) <= S (count_commas s))%nat.
Proof.
  revert s. induction room as [|room IH]; intros s; cbn [tokenize length]; [lia|].
  unfold strtok_r.
  pose proof (skip_while_commas s) as Hskip.
  destruct (skip_while (Ascii.eqb ",") s) as [|c s'] eqn:Es; cbn [length]; [lia|].
  pose proof (span_until_commas (c :: s')) as Hspan.
  destruct (span_until (Ascii.eqb ",") (c :: s')) as [tok [rest|]];
    cbn [snd default from_option id length] in *; unfold id.
  - specialize (IH rest). lia.
  - rewrite tokenize_nil. cbn [length]. lia.
Qed.

(** A record with at most five fields (at most four commas between its
    parentheses) never gets past the token count. *)
Lemma record_needs_six_fields (line args : buffer) :
  located_var_args (skip_while is_blank (c_str line)) = Some args ->
  (count_commas args < 5)%nat ->
  parse_located_var line = NoMarker \/ parse_located_var line = Rejected.
Proof.
  intros Hargs Hfew. unfold parse_located_var.
  destruct (strstr _ _); [|left; reflexivity].
  rewrite Hargs. cbv zeta.
  pose proof (tokenize_length 8 args) as Hlen.
  destruct (Nat.ltb_spec (length (tokenize 8 args)) 6) as [_|Hge];
    [right; reflexivity|lia].
Qed.

(** C1 (the code departs from the claim): the slot of [%IW5] is present, yet
    the five-field record naming it is rejected by the token count, and a
    start on a manifest holding just that record registers no node and
    consumes no id; the same record with a sixth field is accepted. *)
Theorem C1_five_field_record_rejected :
  resolvePointerFromLocation demo_image (lit "%IW5") =
    Some (11%positive, UA_TYPES_UINT16) /\
  parse_located_var (lit "__LOCATED_VAR(UINT,__IW5,I,W,5)") = Rejected /\
  g_opcua_running (state_of (opcuaStartServer 4840 (boot 1 five_field_manifest))) = true /\
  g_node_list (state_of (opcuaStartServer 4840 (boot 1 five_field_manifest))) = [] /\
  nextId (state_of (opcuaStartServer 4840 (boot 1 five_field_manifest))) = 4000000 /\
  parse_located_var (lit "__LOCATED_VAR(UINT,__IW5,I,W,5,0)") =
    LocatedVar (lit "IW5") (lit "%IW5").
Proof. vm_compute. repeat split; reflexivity. Qed.

Section Namespace.
Context {W Srv : Type} {stack : Stack W Srv}.

(** Whatever index the stack hands out, [registerNamespace] stores it, logs
    one line and returns; index 0 changes the log line and nothing else. *)
Lemma registerNamespace_only_logs (server : Srv) (st : State W Srv) :
  let idx := fst (UA_Server_addNamespace (world st) server "http://openplc.org/") in
  g_namespace_index (registerNamespace server st) = idx /\
  g_opcua_server (registerNamespace server st) = g_opcua_server st /\
  g_opcua_running (registerNamespace server st) = g_opcua_running st /\
  events_since st (registerNamespace server st) =
    [EvStack "UA_Server_addNamespace";
     EvLog (if idx =? 0 then "Failed to add OpenPLC namespace"
            else "OpenPLC namespace registered")].
Proof.
  cbv zeta. unfold registerNamespace, events_since. rewrite call_eq. cbv zeta.
  cbn [fst snd].
  destruct (_ =? 0); cbn; rewrite <- app_assoc, drop_app_length;
    repeat split; reflexivity.
Qed.
End Namespace.

(** C6 (the code departs from the claim): with a stack whose
    [UA_Server_addNamespace] returns 0, [opcuaStartServer] logs the failure
    and goes on: it reaches its run loop with the running flag set, the
    server instance alive and never deleted, and the node of the manifest
    built in namespace 0. *)
Theorem C6_namespace_zero_start_goes_on :
  exists st,
    opcuaStartServer 4840 (boot 0 bit_manifest) = InRunLoop st /\
    g_namespace_index st = 0 /\
    g_opcua_running st = true /\
    g_opcua_server st = Some 1%positive /\
    map OpcNodeInfo.nodeId (g_node_list st) = [UA_NODEID_NUMERIC 0 4000000] /\
    EvLog "Failed to add OpenPLC namespace" ∈ trace (machine st) /\
    EvStack "UA_Server_delete" ∉ trace (machine st).
Proof.
  eexists. split; [vm_compute; reflexivity|].
  repeat split; try reflexivity.
  - apply (bool_decide_unpack _). vm_compute. exact I.
  - apply (bool_decide_unpack _). vm_compute. exact I.
Qed.

(** C7 (the code departs from the claim): after start, stop, start on an
    unchanged one-record manifest the node list holds two elements and the
    counter says 2; the element of the first instance is still registered,
    though the new server has no node of that id, and the next publish
    fails on it. *)
Theorem C7_first_instance_binding_survives_restart :
  registered_ids (fst (start_stop_start (boot 1 bit_manifest))) = [4000000] /\
  g_node_count (fst (start_stop_start (boot 1 bit_manifest))) = 1 /\
  registered_ids (snd (start_stop_start (boot 1 bit_manifest))) = [4000001; 4000000] /\
  g_node_count (snd (start_stop_start (boot 1 bit_manifest))) = 2 /\
  ~ (UA_NODEID_NUMERIC 1 4000000 ∈
       sim_nodes (world (snd (start_stop_start (boot 1 bit_manifest))))) /\
  events_since (snd (start_stop_start (boot 1 bit_manifest)))
    (opcuaUpdateNodeValues (snd (start_stop_start (boot 1 bit_manifest)))) =
  [EvLock opcua_mutex; EvLog "<debug_msg>";
   EvLoad 10%positive; EvStack "UA_Server_writeValue";
   EvLoad 10%positive; EvStack "UA_Server_writeValue";
   EvLog "Failed to update node value"; EvUnlock opcua_mutex].
Proof.
  repeat split; try (vm_compute; reflexivity).
  apply (bool_decide_unpack _). vm_compute. exact I.
Qed.

(** ** The id counter *)

Section Counter.
Context {W Srv : Type} {stack : Stack W Srv}.
Implicit Types st : State W Srv.


Lemma wrap_uint32_small (z : Z) : 0 <= z < 2 ^ 32 -> wrap_uint32 z = z.
Proof. intros H. unfold wrap_uint32. apply Z.mod_small. exact H. Qed.


End Counter.





(** ** How the counter gets to the end of its range *)

Lemma fopen_bit_manifest : fopen_first bit_manifest hdrCandidates = Some bit_line.
Proof. vm_compute. reflexivity. Qed.

Lemma file_lines_bit_line : file_lines bit_line = [bit_line].
Proof. vm_compute. reflexivity. Qed.

Lemma parse_bit_line :
  parse_located_var bit_line = LocatedVar (lit "QX0_1") (lit "%QX0.1").
Proof. vm_compute. reflexivity. Qed.

Section OneRecord.
Context {W Srv : Type} {stack : Stack W Srv}.
Implicit Types st : State W Srv.

(** On the one-record manifest and the demo image the scan consumes exactly
    one id and asks for exactly one node, whatever the stack answers. *)
Lemma createNodes_bit_manifest (server : Srv) st :
  image st = demo_image ->
  files st = bit_manifest ->
  exists st1 name parent ns,
    registry st1 =
      (g_node_list st, g_node_count st, wrap_uint32 (nextId st + 1),
       image st, files st) /\
    snd (createNodesFromLocatedVariables server st) =
      addVariableNode server name parent (UA_NODEID_NUMERIC ns (nextId st))
        (Some 10%positive) (Some UA_TYPES_BOOLEAN) st1.
Proof.
  intros Himg Hfs.
  unfold createNodesFromLocatedVariables, createProgramVariablesFolder. cbv zeta.
  set (st0 := add_folder server 2100 _ "ProgramVariables" st).
  assert (H0 : registry st0 = registry st) by apply registry_add_folder.
  apply registry_fields in H0 as (Hl & Hc & Hn & Hi & Hf).
  rewrite Hf, Hfs, fopen_bit_manifest, file_lines_bit_line.
  cbn [foldl]. unfold scan_line. cbn [scan_state added seen].
  rewrite parse_bit_line, Hi, Himg, resolve_QX0_1. cbv zeta.
  cbn [added scan_state]. change (0 + 1 =? 0) with false. cbv iota. cbn [snd].
  eexists _, _, _, _. split; [|rewrite <- Hn; reflexivity].
  unfold registry. cbn. rewrite Hl, Hc, Hn, Hi, Hf, Himg, Hfs. reflexivity.
Qed.

Lemma scanAndCreateNodes_bit_manifest (server : Srv) st :
  image st = demo_image ->
  files st = bit_manifest ->
  nextId (scanAndCreateNodes server st) = wrap_uint32 (nextId st + 1) /\
  image (scanAndCreateNodes server st) = demo_image /\
  files (scanAndCreateNodes server st) = bit_manifest.
Proof.
  intros Himg Hfs. unfold scanAndCreateNodes. cbv zeta.
  set (st1 := createFolderStructure server _).
  assert (H1 : registry st1 = registry st).
  { unfold st1. rewrite registry_createFolderStructure. apply registry_log. }
  apply registry_fields in H1 as (Hl & Hc & Hn & Hi & Hf).
  destruct (createNodes_bit_manifest server st1)
    as (st2 & name & parent & ns & H2 & E); [congruence | congruence |].
  destruct (createNodesFromLocatedVariables server st1) as [n st3].
  cbn [snd] in E. subst st3.
  apply registry_fields in H2 as (Hl2 & Hc2 & Hn2 & Hi2 & Hf2).
  match goal with
  | |- context [addVariableNode ?s ?a ?b ?c ?d ?e ?x] =>
      destruct (addVariableNode_effect s a b c d e x) as [H|(_ & _ & H)]
  end; apply registry_fields in H as (_ & _ & Hn3 & Hi3 & Hf3);
    change (nextId (log ?m ?x)) with (nextId x);
    change (image (log ?m ?x)) with (image x);
    change (files (log ?m ?x)) with (files x);
    rewrite Hn3, Hi3, Hf3; repeat split; congruence.
Qed.
End OneRecord.

(** The stack of the examples never refuses to create or start a server. *)
Lemma opcuaStartServer_sim (st : State Sim positive) :
  g_opcua_running st = false ->
  exists server st2 st3,
    registry st2 = registry st /\
    opcuaStartServer 4840 st = InRunLoop st3 /\
    g_opcua_running st3 = true /\
    registry st3 = registry (scanAndCreateNodes server st2).
Proof.
  intros Hrun. unfold opcuaStartServer. rewrite Hrun. cbv zeta.
  set (st1 := set_g_namespace_index 1 _).
  assert (H1 : registry st1 = registry st).
  { unfold st1. destruct (g_opcua_server (log _ st)); reflexivity. }
  clearbody st1.
  rewrite call_eq. cbn [fst snd UA_Server_new sim_stack].
  rewrite call_eq. cbn [fst snd UA_Server_getConfig sim_stack negb].
  rewrite call_eq. cbn [fst snd UA_ServerConfig_setMinimal sim_stack].
  change (UA_STATUSCODE_GOOD =? UA_STATUSCODE_GOOD) with true. cbn [negb].
  rewrite call_eq. cbn [fst snd UA_Server_run_startup sim_stack].
  change (UA_STATUSCODE_GOOD =? UA_STATUSCODE_GOOD) with true. cbn [negb].
  set (server := sim_instances (world st1)).
  set (st2 := log "About to scan and create nodes..." _).
  match goal with
  | |- context [InRunLoop ?x = InRunLoop _] => set (st3 := x)
  end.
  exists server, st2, st3.
  split.
  { unfold st2. rewrite registry_log, registry_logOpen62541AbiInfo,
      registry_registerNamespace. exact H1. }
  split; [reflexivity|]. split; [reflexivity|].
  unfold st3.
  rewrite registry_log, registry_set_world, registry_on_machine, !registry_log,
    registry_set_running, registry_log.
  reflexivity.
Qed.

(** A restart on the one-record manifest advances the counter by one. *)
Lemma restart_cycle_counter (st : State Sim positive) :
  reachable st ->
  g_opcua_running st = false ->
  image st = demo_image ->
  files st = bit_manifest ->
  reachable (restart_cycle st) /\
  g_opcua_running (restart_cycle st) = false /\
  image (restart_cycle st) = demo_image /\
  files (restart_cycle st) = bit_manifest /\
  nextId (restart_cycle st) = wrap_uint32 (nextId st + 1).
Proof.
  intros Hreach Hrun Himg Hfs.
  destruct (opcuaStartServer_sim st Hrun) as (server & st2 & st3 & H2 & E & Hr3 & H3).
  apply registry_fields in H2 as (_ & _ & Hn2 & Hi2 & Hf2).
  destruct (scanAndCreateNodes_bit_manifest server st2) as (Hn & Hi & Hf);
    [congruence | congruence |].
  symmetry in H3. apply registry_fields in H3 as (_ & _ & Hn3 & Hi3 & Hf3).
  assert (Hstart : bridge_step st st3).
  { pose proof (step_start 4840 st) as Hs. rewrite E in Hs. exact Hs. }
  unfold restart_cycle. rewrite E. cbn [state_of].
  split.
  { eapply reachable_step; [|apply step_exit].
    eapply reachable_step; [|apply step_stop_signal; exact Hr3].
    eapply reachable_step; eassumption. }
  split; [reflexivity|].
  change (image st3 = demo_image /\ files st3 = bit_manifest /\
          nextId st3 = wrap_uint32 (nextId st + 1)).
  repeat split; congruence.
Qed.

Lemma wrap_uint32_succ (z : Z) :
  wrap_uint32 (wrap_uint32 z + 1) = wrap_uint32 (z + 1).
Proof. unfold wrap_uint32. apply Zplus_mod_idemp_l. Qed.

(** Starting from a freshly loaded process, [k] restarts take the counter
    to [4000000 + k] modulo [2^32]. *)
Lemma counter_after_restarts (k : nat) :
  let st := Nat.iter k restart_cycle (boot 1 bit_manifest) in
  reachable st /\
  g_opcua_running st = false /\
  image st = demo_image /\
  files st = bit_manifest /\
  nextId st = wrap_uint32 (4000000 + Z.of_nat k).
Proof.
  induction k as [|k IH]; cbv zeta.
  - split; [apply reachable_boot|]. repeat split.
  - cbn [Nat.iter]. cbv zeta in IH. destruct IH as (Hreach & Hrun & Himg & Hfs & Hn).
    destruct (restart_cycle_counter _ Hreach Hrun Himg Hfs)
      as (Hreach' & Hrun' & Himg' & Hfs' & Hn').
    repeat split; try assumption.
    rewrite Nat.iter_succ, Hn', Hn, wrap_uint32_succ. f_equal. lia.
Qed.

(** The counter value of [last_id_state] is reached by a stopped bridge
    after 4290967295 restarts. *)
Lemma counter_reaches_last_id :
  exists st : State Sim positive,
    reachable st /\ g_opcua_running st = false /\ nextId st = 4294967295.
Proof.
  destruct (counter_after_restarts (Z.to_nat 4290967295))
    as (Hreach & Hrun & _ & _ & Hn).
  eexists. split; [exact Hreach|]. split; [exact Hrun|].
  rewrite Hn, Z2Nat.id by lia. reflexivity.
Qed.

(** ** The per-scan publisher *)



Section Publisher.
Context {W Srv : Type} {stack : Stack W Srv}.
Implicit Types st : State W Srv.



Lemma events_since_app st st' evs :
  trace (machine st') = trace (machine st) ++ evs -> events_since st st' = evs.
Proof. intros H. unfold events_since. rewrite H. apply drop_app_length. Qed.



(** Without a running server the publisher only logs. *)
Lemma opcuaUpdateNodeValues_not_running st :
  g_opcua_server st = None \/ g_opcua_running st = false ->
  events_since st (opcuaUpdateNodeValues st) =
  [EvLog "opcuaUpdateNodeValues() - server not running, skipping"].
Proof.
  intros H. apply events_since_app. unfold opcuaUpdateNodeValues.
  destruct H as [-> | H]; [reflexivity|].
  rewrite H. destruct (g_opcua_server st); reflexivity.
Qed.
End Publisher.




(** * Further properties of the code *)

(** ** The value handlers on every input *)

Lemma new_events_app {A : Type} (m : Machine) (o : Outcome A) (evs : list Event) :
  trace (final_machine o) = trace m ++ evs -> new_events m o = evs.
Proof. intros H. unfold new_events. rewrite H. apply drop_app_length. Qed.

Lemma new_events_nil {A : Type} (m : Machine) (a : A) :
  new_events m (Returns a m) = [].
Proof. unfold new_events. simpl. apply drop_all. Qed.

Lemma as_type_idemp (t : UA_DataType) (z : Z) :
  as_type t (as_type t z) = as_type t z.
Proof.
  unfold as_type. apply Z.mod_mod.
  destruct t; simpl; lia.
Qed.

(** X1: the read handler on any input: it always returns, changes no memory
    cell, takes no lock, loads at most the shadow cell of its binding, and
    answers BadInternalError exactly when the node context or the data value
    pointer is NULL (Good otherwise). *)
Theorem readVariableValue_total_and_pure
    (nodeContext : option OpcVarBinding.t) (dataValue : option UA_DataValue)
    (m : Machine) :
  exists sc dv' m',
    readVariableValue nodeContext dataValue m = Returns (sc, dv') m' /\
    mem m' = mem m /\
    (new_events m (readVariableValue nodeContext dataValue m) = [] \/
     exists binding s,
       nodeContext = Some binding /\ OpcVarBinding.shadowPtr binding = Some s /\
       new_events m (readVariableValue nodeContext dataValue m) = [EvLoad s]) /\
    sc = (if bool_decide (is_Some nodeContext) && bool_decide (is_Some dataValue)
          then UA_STATUSCODE_GOOD else UA_STATUSCODE_BADINTERNALERROR).
Proof.
  unfold readVariableValue.
  destruct nodeContext as [binding|]; [|destruct dataValue;
    eexists _, _, _; (split; [reflexivity|]); (split; [reflexivity|]);
    (split; [left; apply new_events_nil | reflexivity])].
  destruct dataValue as [dv|];
    [|eexists _, _, _; (split; [reflexivity|]); (split; [reflexivity|]);
      (split; [left; apply new_events_nil | reflexivity])].
  destruct (OpcVarBinding.dataType binding) as [t|];
    [|eexists _, _, _; (split; [reflexivity|]); (split; [reflexivity|]);
      (split; [left; apply new_events_nil | reflexivity])].
  destruct (OpcVarBinding.shadowPtr binding) as [s|] eqn:Hs;
    [|eexists _, _, _; (split; [reflexivity|]); (split; [reflexivity|]);
      (split; [left; apply new_events_nil | reflexivity])].
  unfold bind, ret, deref.
  destruct (handled t).
  - eexists _, _, _. split; [reflexivity|]. split; [reflexivity|].
    split; [|reflexivity].
    right. exists binding, s. split; [reflexivity|]. split; [exact Hs|].
    apply new_events_app. reflexivity.
  - eexists _, _, _. split; [reflexivity|]. split; [reflexivity|].
    split; [left; apply new_events_nil | reflexivity].
Qed.

(** X2: the write handler on any input.  When it returns, it has either done
    nothing at all (BadInternalError: NULL context, NULL data value or no
    value) or taken the scan lock once and released it before returning,
    with no other lock operation in between.  It fails to return in exactly
    one situation: the value matches the binding's type, one of the eleven
    scalar types, and the binding's image pointer is NULL; the pointer is
    dereferenced unchecked, with the scan lock still held and memory
    untouched. *)
Theorem writeVariableValue_lock_discipline
    (nodeContext : option OpcVarBinding.t) (dataValue : option UA_DataValue)
    (m : Machine) :
  match writeVariableValue nodeContext dataValue m with
  | Returns sc m' =>
      (sc = UA_STATUSCODE_BADINTERNALERROR /\ m' = m) \/
      exists mid,
        trace m' = trace m ++ EvLock bufferLock :: mid ++ [EvUnlock bufferLock] /\
        Forall (fun e => is_lock_event e = false) mid
  | Fault m' =>
      exists binding dv t z,
        nodeContext = Some binding /\ dataValue = Some dv /\
        variant_scalar (value dv) = Some (t, z) /\
        OpcVarBinding.dataType binding = Some t /\ handled t = true /\
        OpcVarBinding.variablePtr binding = None /\
        mem m' = mem m /\
        trace m' = trace m ++ [EvLock bufferLock; EvLog "OPCUA WRITE cb"]
  end.
Proof.
  unfold writeVariableValue.
  destruct nodeContext as [binding|]; [|left; split; reflexivity].
  destruct dataValue as [dv|]; [|left; split; reflexivity].
  destruct (negb (hasValue dv)); [left; split; reflexivity|].
  unfold bind, act, ret. simpl.
  destruct (variant_scalar (value dv)) as [[tv z]|] eqn:Hv.
  - destruct (bool_decide (Some tv = OpcVarBinding.dataType binding)) eqn:Hty; simpl.
    + apply bool_decide_eq_true in Hty.
      destruct (handled tv) eqn:Hh.
      * destruct binding as [vp dt sp]; simpl in *.
        destruct vp as [a|]; unfold_machine.
        -- destruct sp as [s|]; simpl; right.
           ++ exists [EvLog "OPCUA WRITE cb"; EvStore a (as_type tv z);
                      EvStore s (as_type tv z)].
              split; [unfold_machine; reflexivity | repeat constructor].
           ++ exists [EvLog "OPCUA WRITE cb"; EvStore a (as_type tv z)].
              split; [unfold_machine; reflexivity | repeat constructor].
        -- exists (OpcVarBinding.mk None dt sp), dv, tv, z. simpl.
           repeat split; try reflexivity; congruence.
      * right. exists [EvLog "OPCUA WRITE cb"].
        split; [unfold_machine; reflexivity | repeat constructor].
    + right. exists [EvLog "OPCUA WRITE cb"].
      split; [unfold_machine; reflexivity | repeat constructor].
  - right. exists [EvLog "OPCUA WRITE cb"].
    split; [unfold_machine; reflexivity | repeat constructor].
Qed.

(** The NULL image pointer at work: the lock is taken and never released. *)
Example writeVariableValue_null_image_pointer :
  writeVariableValue (Some unbound_binding) (Some (scalar_value UA_TYPES_UINT16 7))
    beef_cells =
  Fault {| mem := mem beef_cells;
           trace := [EvLock bufferLock; EvLog "OPCUA WRITE cb"] |}.
Proof. reflexivity. Qed.

Lemma insert_other (h : gmap addr Z) (a b : addr) (v : Z) :
  a <> b -> <[b := v]> h !! a = h !! a.
Proof. intros H. apply lookup_insert_ne. congruence. Qed.

(** X3: a write reaches no cell but its own.  Whatever the value and
    whatever the outcome, [writeVariableValue] leaves every cell other than
    the binding's image cell and shadow cell as it was, and the installed
    [onVariableValueWrite] leaves every cell other than the node's image cell
    as it was. *)
Theorem write_handlers_touch_own_cells_only
    (binding : OpcVarBinding.t) (info : OpcNodeInfo.t)
    (dataValue : option UA_DataValue) (m : Machine) (a : addr) :
  Some a <> OpcVarBinding.variablePtr binding ->
  Some a <> OpcVarBinding.shadowPtr binding ->
  Some a <> OpcNodeInfo.variablePtr info ->
  mem (final_machine (writeVariableValue (Some binding) dataValue m)) !! a = mem m !! a /\
  mem (final_machine (onVariableValueWrite (Some info) dataValue m)) !! a = mem m !! a.
Proof.
  intros Hv Hs Hi. split.
  - unfold writeVariableValue.
    destruct dataValue as [dv|]; [|reflexivity].
    destruct (negb (hasValue dv)); [reflexivity|].
    unfold bind, act, ret. simpl.
    destruct (variant_scalar (value dv)) as [[tv z]|]; [|reflexivity].
    destruct (bool_decide _); simpl; [|reflexivity].
    destruct (handled tv); [|reflexivity].
    destruct binding as [vp dt sp]; simpl in *.
    destruct vp as [p|]; unfold_machine; [|reflexivity].
    destruct sp as [s|]; simpl.
    + rewrite !insert_other by congruence. reflexivity.
    + rewrite insert_other by congruence. reflexivity.
  - unfold onVariableValueWrite.
    destruct dataValue as [dv|]; [|reflexivity].
    destruct (negb (hasValue dv)); [reflexivity|].
    destruct info as [id vp dt]; simpl in *.
    destruct vp as [p|]; [|reflexivity].
    destruct dt as [t|]; [|reflexivity].
    destruct (variant_scalar (value dv)) as [[tv z]|]; [|reflexivity].
    destruct (negb _); [reflexivity|].
    unfold bind, act, ret. simpl.
    destruct (handled t); unfold_machine; [|reflexivity].
    rewrite insert_other by congruence. reflexivity.
Qed.

Lemma write_handlers_touch_own_cells_only_witness :
  Some 5%positive <> OpcVarBinding.variablePtr uint16_binding /\
  Some 5%positive <> OpcVarBinding.shadowPtr uint16_binding /\
  Some 5%positive <> OpcNodeInfo.variablePtr uint16_node /\
  mem (final_machine (writeVariableValue (Some uint16_binding)
         (Some (scalar_value UA_TYPES_UINT16 7)) beef_cells)) !! 5%positive =
    mem beef_cells !! 5%positive /\
  mem (final_machine (onVariableValueWrite (Some uint16_node)
         (Some (scalar_value UA_TYPES_UINT16 7)) beef_cells)) !! 5%positive =
    mem beef_cells !! 5%positive.
Proof.
  assert (H1 : Some 5%positive <> OpcVarBinding.variablePtr uint16_binding)
    by discriminate.
  assert (H2 : Some 5%positive <> OpcVarBinding.shadowPtr uint16_binding)
    by discriminate.
  assert (H3 : Some 5%positive <> OpcNodeInfo.variablePtr uint16_node)
    by discriminate.
  split; [exact H1|]. split; [exact H2|]. split; [exact H3|].
  exact (write_handlers_touch_own_cells_only uint16_binding uint16_node
           (Some (scalar_value UA_TYPES_UINT16 7)) beef_cells 5%positive H1 H2 H3).
Defined.

(** X4: write, then read.  After [writeVariableValue] has returned Good on a
    binding with a shadow cell, [readVariableValue] on the same binding
    fills the variant with the value just written, of the binding's type,
    loading the shadow cell only; it still reports [hasValue] false. *)
Theorem write_then_read_returns_written_value
    (binding : OpcVarBinding.t) (s : addr) (dv dv0 : UA_DataValue) (m m' : Machine) :
  OpcVarBinding.shadowPtr binding = Some s ->
  writeVariableValue (Some binding) (Some dv) m = Returns UA_STATUSCODE_GOOD m' ->
  exists t z,
    variant_scalar (value dv) = Some (t, z) /\
    readVariableValue (Some binding) (Some dv0) m' =
    Returns
      (UA_STATUSCODE_GOOD,
       Some (read_result (UA_Variant_setScalarCopy (as_type t z) t)))
      {| mem := mem m'; trace := trace m' ++ [EvLoad s] |}.
Proof.
  intros Hs Hw. revert Hw. unfold writeVariableValue.
  destruct (negb (hasValue dv)); [intros [= H]; discriminate|].
  unfold bind, act, ret. simpl.
  destruct (variant_scalar (value dv)) as [[t z]|] eqn:Hv;
    [|intros [= H]; discriminate].
  destruct (bool_decide (Some t = OpcVarBinding.dataType binding)) eqn:Hty;
    simpl; [|intros [= H]; discriminate].
  apply bool_decide_eq_true in Hty.
  destruct (handled t) eqn:Hh; [|intros [= H]; discriminate].
  destruct binding as [vp dt sp]; simpl in *. subst sp dt.
  destruct vp as [a|]; unfold_machine; [|discriminate].
  intros [= <-]. exists t, z. split; [reflexivity|].
  unfold readVariableValue. simpl. rewrite Hh.
  unfold bind, ret, deref, emit, cell. simpl.
  rewrite lookup_insert_eq. simpl. rewrite as_type_idemp. reflexivity.
Qed.

Lemma write_then_read_returns_written_value_witness :
  OpcVarBinding.shadowPtr uint16_binding = Some 21%positive /\
  writeVariableValue (Some uint16_binding) (Some (scalar_value UA_TYPES_UINT16 7))
    beef_cells = Returns UA_STATUSCODE_GOOD beef_cells_written /\
  exists t z,
    variant_scalar (value (scalar_value UA_TYPES_UINT16 7)) = Some (t, z) /\
    readVariableValue (Some uint16_binding) (Some empty_value) beef_cells_written =
    Returns
      (UA_STATUSCODE_GOOD,
       Some (read_result (UA_Variant_setScalarCopy (as_type t z) t)))
      {| mem := mem beef_cells_written;
         trace := trace beef_cells_written ++ [EvLoad 21%positive] |}.
Proof.
  split; [reflexivity|]. split; [reflexivity|].
  apply (write_then_read_returns_written_value uint16_binding 21%positive
           (scalar_value UA_TYPES_UINT16 7) empty_value beef_cells beef_cells_written);
    reflexivity.
Defined.

(** ** Lifecycle *)

Section Lifecycle.
Context {W Srv : Type} {stack : Stack W Srv}.
Implicit Types st : State W Srv.

Lemma lifecycle_add_folder (server : Srv) id parent name st :
  lifecycle (add_folder server id parent name st) = lifecycle st.
Proof.
  unfold add_folder. rewrite call_eq. destruct (negb _ && negb _); reflexivity.
Qed.

Lemma lifecycle_log msg st : lifecycle (log msg st) = lifecycle st.
Proof. reflexivity. Qed.

Lemma lifecycle_createFolderStructure (server : Srv) st :
  lifecycle (createFolderStructure server st) = lifecycle st.
Proof.
  unfold createFolderStructure. cbv zeta.
  rewrite lifecycle_log, !lifecycle_add_folder, lifecycle_log. reflexivity.
Qed.

Lemma lifecycle_addVariableNode (server : Srv) name parent id ptr ty st :
  lifecycle (addVariableNode server name parent id ptr ty st) = lifecycle st.
Proof.
  unfold addVariableNode.
  destruct ptr as [p|]; [|reflexivity].
  destruct ty as [t|]; [|reflexivity].
  rewrite call_eq. cbv zeta.
  destruct (_ =? UA_STATUSCODE_GOOD).
  - rewrite malloc_eq. destruct (fst (malloc_OpcNodeInfo _)); reflexivity.
  - destruct (_ =? UA_STATUSCODE_BADNODEIDEXISTS); reflexivity.
Qed.

Lemma lifecycle_scan_line (server : Srv) folder (sc : Scan) line :
  lifecycle (scan_state (scan_line server folder sc line)) =
  lifecycle (scan_state sc).
Proof.
  unfold scan_line.
  destruct (parse_located_var line) as [| |dispName location]; try reflexivity.
  destruct (resolvePointerFromLocation _ location) as [[ptr ty]|]; [|reflexivity].
  cbv zeta. cbn [scan_state]. rewrite lifecycle_addVariableNode. reflexivity.
Qed.

Lemma lifecycle_foldl_scan_line (server : Srv) folder lines (sc : Scan) :
  lifecycle (scan_state (foldl (scan_line server folder) sc lines)) =
  lifecycle (scan_state sc).
Proof.
  revert sc. induction lines as [|line lines IH]; intros sc; [reflexivity|].
  cbn [foldl]. rewrite IH. apply lifecycle_scan_line.
Qed.

Lemma lifecycle_createNodes (server : Srv) st :
  lifecycle (snd (createNodesFromLocatedVariables server st)) = lifecycle st.
Proof.
  unfold createNodesFromLocatedVariables, createProgramVariablesFolder. cbv zeta.
  destruct (fopen_first _ hdrCandidates) as [content|]; cbn [snd].
  - destruct (added _ =? 0); cbn [snd]; rewrite ?lifecycle_log,
      lifecycle_foldl_scan_line; cbn [scan_state]; apply lifecycle_add_folder.
  - rewrite lifecycle_log. apply lifecycle_add_folder.
Qed.

Lemma lifecycle_scanAndCreateNodes (server : Srv) st :
  lifecycle (scanAndCreateNodes server st) = lifecycle st.
Proof.
  unfold scanAndCreateNodes. cbv zeta.
  pose proof (lifecycle_createNodes server
                (createFolderStructure server
                   (log "Starting to scan and create OPC UA nodes..." st))) as H.
  destruct (createNodesFromLocatedVariables server _) as [n st2]. cbn [snd] in H.
  rewrite lifecycle_log, H, lifecycle_createFolderStructure. reflexivity.
Qed.

Lemma lifecycle_registerNamespace (server : Srv) st :
  lifecycle (registerNamespace server st) = lifecycle st.
Proof.
  unfold registerNamespace. rewrite call_eq. destruct (_ =? 0); reflexivity.
Qed.

Lemma lifecycle_logOpen62541AbiInfo (server : Srv) st :
  lifecycle (logOpen62541AbiInfo server st) = lifecycle st.
Proof. unfold logOpen62541AbiInfo. rewrite call_eq. reflexivity. Qed.

(** X5: how a start ends.  A call of [opcuaStartServer] that finds the
    running flag set only logs.  Otherwise it either returns on a failure,
    and then the server handle is NULL and the running flag clear, or it
    reaches its run loop, and then the handle is non-NULL and the flag set;
    this holds whatever the stack answers. *)
Theorem opcuaStartServer_outcome (port : Z) st :
  match opcuaStartServer port st with
  | Returned st' =>
      (g_opcua_running st = true /\
       st' = log "OPC UA server already running. Ignoring start request." st) \/
      (g_opcua_running st = false /\ lifecycle st' = (None, false))
  | InRunLoop st' =>
      g_opcua_running st = false /\
      exists server, lifecycle st' = (Some server, true)
  end.
Proof.
  unfold opcuaStartServer.
  destruct (g_opcua_running st) eqn:Hrun; [left; split; reflexivity|].
  cbv zeta.
  set (st1 := set_g_namespace_index 1 _).
  rewrite call_eq. cbv iota beta.
  destruct (fst (UA_Server_new (world st1))) as [server|];
    [|right; split; reflexivity].
  rewrite call_eq. cbv iota beta.
  destruct (negb _); [right; split; reflexivity|].
  rewrite call_eq. cbv iota beta.
  destruct (negb _); [right; split; reflexivity|].
  rewrite call_eq. cbv iota beta.
  set (st2 := log "About to scan and create nodes..." _).
  assert (H2 : lifecycle st2 = (Some server, false)).
  { unfold st2. rewrite lifecycle_log, lifecycle_logOpen62541AbiInfo,
      lifecycle_registerNamespace. reflexivity. }
  pose proof (lifecycle_scanAndCreateNodes server st2) as H3.
  rewrite H2 in H3. unfold lifecycle in H3.
  destruct (negb _).
  - right. split; reflexivity.
  - split; [reflexivity|]. exists server.
    unfold lifecycle. cbn. injection H3 as -> _. reflexivity.
Qed.
End Lifecycle.

Section Stop.
Context {W Srv : Type} {stack : Stack W Srv}.
Implicit Types st : State W Srv.

(** X6: [stopOpcua] is idempotent.  Called on a running bridge it clears the
    flag and, after the wait, deletes the server if the handle is still
    non-NULL; called again, or on a bridge whose flag is clear, it does
    nothing at all, not even when a server handle is still set.  The node
    list and the id counter are never touched. *)
Theorem stopOpcua_idempotent st :
  stopOpcua (stopOpcua st) = stopOpcua st /\
  lifecycle (stopOpcua st) =
    (if g_opcua_running st then None else g_opcua_server st, false) /\
  registry (stopOpcua st) = registry st.
Proof.
  split; [|split; [|apply registry_stopOpcua]].
  - unfold stopOpcua at 2 3.
    destruct (g_opcua_running st) eqn:Hrun.
    + unfold stopOpcua.
      replace (g_opcua_running (stopOpcua_cleanup (stopOpcua_signal st)))
        with false; [reflexivity|].
      unfold stopOpcua_cleanup.
      destruct (g_opcua_server (stopOpcua_signal st)); reflexivity.
    + unfold stopOpcua. rewrite Hrun. reflexivity.
  - unfold stopOpcua, lifecycle.
    destruct (g_opcua_running st) eqn:Hrun; [|rewrite Hrun; reflexivity].
    unfold stopOpcua_cleanup.
    destruct (g_opcua_server (stopOpcua_signal st)) eqn:E; [reflexivity|].
    rewrite E. reflexivity.
Qed.





End Stop.


(** ** What the manifest scan returns *)

Section ScanCounts.
Context {W Srv : Type} {stack : Stack W Srv}.
Implicit Types st : State W Srv.

Lemma scan_line_counts (server : Srv) (folder : UA_NodeId) (sc : Scan) (line : buffer) :
  let sc' := scan_line server folder sc line in
  (added sc' = added sc /\ seen sc <= seen sc' <= seen sc + 1 /\
   registry (scan_state sc') = registry (scan_state sc)) \/
  (added sc' = added sc + 1 /\ seen sc' = seen sc + 1 /\
   nextId (scan_state sc') = wrap_uint32 (nextId (scan_state sc) + 1) /\
   g_node_count (scan_state sc) <= g_node_count (scan_state sc')
     <= g_node_count (scan_state sc) + 1).
Proof.
  cbv zeta. unfold scan_line.
  destruct (parse_located_var line) as [| |dispName location].
  - left. split; [reflexivity|]. split; [lia | reflexivity].
  - left. split; [reflexivity|]. split; [simpl; lia | reflexivity].
  - destruct (resolvePointerFromLocation _ location) as [[ptr ty]|].
    + right. cbv zeta. cbn [added seen scan_state].
      split; [reflexivity|]. split; [reflexivity|].
      match goal with
      | |- context [addVariableNode ?s ?n ?p ?i ?a ?b ?x] =>
          destruct (addVariableNode_effect s n p i a b x) as [H|(_ & _ & H)]
      end; apply registry_fields in H as (_ & Hc & Hn & _); rewrite Hc, Hn;
        cbn; split; try reflexivity; lia.
    + left. split; [reflexivity|]. split; [simpl; lia | reflexivity].
Qed.

Lemma foldl_scan_line_counts (server : Srv) (folder : UA_NodeId) lines (sc : Scan) :
  let sc' := foldl (scan_line server folder) sc lines in
  0 <= added sc' - added sc <= seen sc' - seen sc /\
  seen sc' - seen sc <= Z.of_nat (length lines) /\
  wrap_uint32 (nextId (scan_state sc')) =
    wrap_uint32 (nextId (scan_state sc) + (added sc' - added sc)) /\
  0 <= g_node_count (scan_state sc') - g_node_count (scan_state sc)
    <= added sc' - added sc.
Proof.
  revert sc. induction lines as [|line lines IH]; intros sc; cbv zeta.
  - cbn [foldl length]. rewrite !Z.sub_diag, Z.add_0_r. repeat split; lia.
  - cbn [foldl length]. specialize (IH (scan_line server folder sc line)).
    cbv zeta in IH. destruct IH as (Ha & Hs & Hn & Hc).
    rewrite Nat2Z.inj_succ.
    destruct (scan_line_counts server folder sc line)
      as [(Ea & Es & Er)|(Ea & Es & En & Ec)]; cbv zeta in *.
    + apply registry_fields in Er as (_ & Erc & Ern & _).
      rewrite Ea, Erc, Ern in *. repeat split; try lia; try exact Hn.
    + rewrite Ea, Es, En in *. repeat split; try lia.
      rewrite Hn.
      replace (nextId (scan_state sc) +
               (added (foldl (scan_line server folder)
                         (scan_line server folder sc line) lines) - added sc))
        with (nextId (scan_state sc) + 1 +
              (added (foldl (scan_line server folder)
                        (scan_line server folder sc line) lines) - (added sc + 1)))
        by lia.
      unfold wrap_uint32. rewrite Zplus_mod_idemp_l. reflexivity.
Qed.

Lemma foldl_scan_line_range (server : Srv) (folder : UA_NodeId) lines (sc : Scan) :
  0 <= nextId (scan_state sc) < 2 ^ 32 ->
  0 <= nextId (scan_state (foldl (scan_line server folder) sc lines)) < 2 ^ 32.
Proof.
  revert sc. induction lines as [|line lines IH]; intros sc H; [exact H|].
  cbn [foldl]. apply IH.
  destruct (scan_line_counts server folder sc line)
    as [(_ & _ & Er)|(_ & _ & En & _)]; cbv zeta in *.
  - apply registry_fields in Er as (_ & _ & Ern & _). rewrite Ern. exact H.
  - rewrite En. unfold wrap_uint32. apply Z.mod_pos_bound. lia.
Qed.

(** The two ways [createNodesFromLocatedVariables] can go. *)
Lemma createNodes_cases (server : Srv) st :
  (fopen_first (files st) hdrCandidates = None /\
   fst (createNodesFromLocatedVariables server st) = 0 /\
   registry (snd (createNodesFromLocatedVariables server st)) = registry st) \/
  exists content st0 folder,
    fopen_first (files st) hdrCandidates = Some content /\
    registry st0 = registry st /\
    fst (createNodesFromLocatedVariables server st) =
      added (foldl (scan_line server folder)
               {| scan_state := st0; added := 0; seen := 0 |} (file_lines content)) /\
    registry (snd (createNodesFromLocatedVariables server st)) =
      registry (scan_state (foldl (scan_line server folder)
                  {| scan_state := st0; added := 0; seen := 0 |} (file_lines content))).
Proof.
  unfold createNodesFromLocatedVariables, createProgramVariablesFolder. cbv zeta.
  set (st0 := add_folder server 2100 _ "ProgramVariables" st).
  assert (H0 : registry st0 = registry st) by apply registry_add_folder.
  assert (Hf : files st0 = files st)
    by (apply registry_fields in H0 as (_ & _ & _ & _ & Hf); exact Hf).
  rewrite Hf.
  destruct (fopen_first (files st) hdrCandidates) as [content|].
  - right. eexists content, st0, _. split; [reflexivity|]. split; [exact H0|].
    destruct (added _ =? 0); split; reflexivity.
  - left. split; [reflexivity|]. split; [reflexivity|].
    cbn [snd]. rewrite registry_log. exact H0.
Qed.

(** X9: what [createNodesFromLocatedVariables] returns.  The value returned
    counts the records that resolved, each of which consumed one id: it lies
    between 0 and the number of lines of the manifest (0 when no manifest is
    found), the id counter has advanced by exactly that value modulo [2^32],
    and the number of nodes actually registered lies between 0 and that
    value, since a node the stack refuses is counted as added all the same. *)
Theorem createNodes_return_value (server : Srv) st :
  0 <= nextId st < 2 ^ 32 ->
  0 <= fst (createNodesFromLocatedVariables server st)
    <= Z.of_nat (manifest_line_count st) /\
  nextId (snd (createNodesFromLocatedVariables server st)) =
    wrap_uint32 (nextId st + fst (createNodesFromLocatedVariables server st)) /\
  0 <= g_node_count (snd (createNodesFromLocatedVariables server st)) -
       g_node_count st
    <= fst (createNodesFromLocatedVariables server st).
Proof.
  intros Hrange. unfold manifest_line_count.
  destruct (createNodes_cases server st)
    as [(Hopen & Hfst & Hreg)|(content & st0 & folder & Hopen & H0 & Hfst & Hreg)];
    rewrite Hopen, Hfst.
  - apply registry_fields in Hreg as (_ & Hc & Hn & _).
    rewrite Hc, Hn, Z.add_0_r, wrap_uint32_small by lia. cbn [length]. lia.
  - set (sc0 := {| scan_state := st0; added := 0; seen := 0 |}) in *.
    pose proof (foldl_scan_line_counts server folder (file_lines content) sc0) as H.
    pose proof (foldl_scan_line_range server folder (file_lines content) sc0) as Hr.
    cbv zeta in H. destruct H as (Ha & Hs & Hn & Hc).
    set (sc' := foldl (scan_line server folder) sc0 (file_lines content)) in *.
    apply registry_fields in H0 as (_ & Hc0 & Hn0 & _).
    apply registry_fields in Hreg as (_ & Hc1 & Hn1 & _).
    change (added sc0) with 0 in *. change (seen sc0) with 0 in *.
    change (scan_state sc0) with st0 in *.
    rewrite Z.sub_0_r in *. rewrite Hc1, Hn1, <- Hc0, <- Hn0.
    split; [lia|]. split; [|lia].
    rewrite <- Hn. symmetry. apply wrap_uint32_small. apply Hr.
    rewrite Hn0. exact Hrange.
Qed.
End ScanCounts.

Lemma createNodes_return_value_witness :
  0 <= nextId (boot 1 bit_manifest) < 2 ^ 32 /\
  0 <= fst (createNodesFromLocatedVariables 1%positive (boot 1 bit_manifest))
    <= Z.of_nat (manifest_line_count (boot 1 bit_manifest)) /\
  nextId (snd (createNodesFromLocatedVariables 1%positive (boot 1 bit_manifest))) =
    wrap_uint32 (nextId (boot 1 bit_manifest) +
                 fst (createNodesFromLocatedVariables 1%positive (boot 1 bit_manifest))) /\
  0 <= g_node_count (snd (createNodesFromLocatedVariables 1%positive
                            (boot 1 bit_manifest))) -
       g_node_count (boot 1 bit_manifest)
    <= fst (createNodesFromLocatedVariables 1%positive (boot 1 bit_manifest)).
Proof.
  assert (H : 0 <= nextId (boot 1 bit_manifest) < 2 ^ 32) by (simpl; lia).
  split; [exact H|].
  exact (createNodes_return_value 1%positive (boot 1 bit_manifest) H).
Defined.

(** ** Adding one node *)

Section AddNode.
Context {W Srv : Type} {stack : Stack W Srv}.
Implicit Types st : State W Srv.

(** X10: when [addVariableNode] registers a node.  Given a non-NULL pointer
    and type, the node is pushed on the list (and the counter incremented)
    exactly when the stack answers Good and the allocation of the list
    element succeeds; on any other answer, BadNodeIdExists included, the
    registry is left as it was.  It calls the stack once when the node is
    refused and three times when it is added, and never while the bridge
    lock or the scan lock is held: the bridge lock is held around the list
    update only. *)
Theorem addVariableNode_registers_on_good (server : Srv) (name : buffer)
    (parent id : UA_NodeId) (p : addr) (t : UA_DataType) st :
  let answer :=
    UA_Server_addVariableNode (world st) server id parent name t (initial_value t) in
  let st' := addVariableNode server name parent id (Some p) (Some t) st in
  registry st' =
    (if ((fst answer =? UA_STATUSCODE_GOOD)%Z && fst (malloc_OpcNodeInfo (snd answer)))%bool
     then (OpcNodeInfo.mk id (Some p) (Some t) :: g_node_list st,
           g_node_count st + 1, nextId st, image st, files st)
     else registry st) /\
  stack_outside opcua_mutex false (events_since st st') = true /\
  stack_outside bufferLock false (events_since st st') = true /\
  count_stack_calls (events_since st st') =
    (if ((fst answer =? UA_STATUSCODE_GOOD)%Z && fst (malloc_OpcNodeInfo (snd answer)))%bool
     then 3 else 1)%nat.
Proof.
  cbv zeta. unfold addVariableNode. rewrite call_eq. cbv zeta. cbn [fst snd].
  change (world (log "Creating node" st)) with (world st).
  destruct (fst (UA_Server_addVariableNode _ _ _ _ _ _ _) =? UA_STATUSCODE_GOOD).
  - rewrite malloc_eq. cbv iota beta. cbn [fst snd world set_world log on_machine].
    destruct (fst (malloc_OpcNodeInfo _)); cbn [andb].
    + split; [reflexivity|].
      match goal with
      | |- context [events_since st ?x] =>
          rewrite (events_since_app st x
            [EvLog "Creating node"; EvStack "UA_Server_addVariableNode";
             EvLog "Node added successfully"; EvLock opcua_mutex;
             EvUnlock opcua_mutex; EvLog "Registered node for updates";
             EvStack "UA_Server_setNodeContext";
             EvStack "UA_Server_setVariableNode_valueCallback"])
      end; [repeat split; reflexivity|].
      cbn. rewrite <- !app_assoc. reflexivity.
    + split; [reflexivity|].
      match goal with
      | |- context [events_since st ?x] =>
          rewrite (events_since_app st x
            [EvLog "Creating node"; EvStack "UA_Server_addVariableNode";
             EvLog "Node added successfully";
             EvLog "Failed to allocate OpcNodeInfo; node will not be updated periodically"])
      end; [repeat split; reflexivity|].
      cbn. rewrite <- !app_assoc. reflexivity.
  - cbn [andb].
    destruct (_ =? UA_STATUSCODE_BADNODEIDEXISTS).
    + split; [reflexivity|].
      match goal with
      | |- context [events_since st ?x] =>
          rewrite (events_since_app st x
            [EvLog "Creating node"; EvStack "UA_Server_addVariableNode";
             EvLog "Node already exists, skipping"])
      end; [repeat split; reflexivity|].
      cbn. rewrite <- !app_assoc. reflexivity.
    + split; [reflexivity|].
      match goal with
      | |- context [events_since st ?x] =>
          rewrite (events_since_app st x
            [EvLog "Creating node"; EvStack "UA_Server_addVariableNode";
             EvLog "Failed to add node"])
      end; [repeat split; reflexivity|].
      cbn. rewrite <- !app_assoc. reflexivity.
Qed.
End AddNode.

(** ** Reading the manifest line by line *)

Lemma fgets_chunk_shape (room : nat) (stream : buffer) :
  let line := fst (fgets_chunk room stream) in
  (length line <= room)%nat /\
  Forall (fun c => c <> "010"%char) (take (length line - 1) line).
Proof.
  cbv zeta. revert stream. induction room as [|room IH]; intros [|c s];
    cbn [fgets_chunk fst length]; try (split; [lia|constructor]).
  destruct (Ascii.eqb_spec c "010") as [->|Hc]; cbn [fst length].
  - split; [lia|constructor].
  - specialize (IH s). destruct (fgets_chunk room s) as [l r]. cbn [fst snd length] in *.
    destruct IH as [Hlen Hall]. split; [lia|].
    destruct l as [|d l]; [constructor|].
    cbn [length] in *. replace (S (S (length l)) - 1)%nat with (S (length l)) by lia.
    replace (S (length l) - 1)%nat with (length l) in Hall by lia.
    cbn [take]. constructor; [exact Hc|exact Hall].
Qed.

Lemma fgets_chunk_nonempty (room : nat) (c : ascii) (s : buffer) :
  (0 < length (fst (fgets_chunk (S room) (c :: s))))%nat.
Proof.
  cbn [fgets_chunk]. destruct (Ascii.eqb c "010"); [cbn; lia|].
  destruct (fgets_chunk room s) as [l r]. cbn [fst length]. lia.
Qed.

Lemma read_lines_shape (fuel : nat) (stream : buffer) :
  Forall (fun line =>
            (0 < length line <= 1023)%nat /\
            Forall (fun c => c <> "010"%char) (take (length line - 1) line))
         (read_lines fuel stream).
Proof.
  revert stream. induction fuel as [|fuel IH]; intros [|c s];
    cbn [read_lines fgets]; try constructor.
  change (1024 - 1)%nat with (S 1022).
  pose proof (fgets_chunk_shape (S 1022) (c :: s)) as Hshape. cbv zeta in Hshape.
  pose proof (fgets_chunk_nonempty 1022 c s) as Hpos.
  destruct (fgets_chunk (S 1022) (c :: s)) as [line rest]. cbn [fst] in *.
  constructor; [|apply IH].
  destruct Hshape as [Hlen Hall]. repeat split; [exact Hpos|lia|exact Hall].
Qed.

(** X11: how the scan cuts the manifest into line buffers.  The loop over
    [fgets(line, 1024, f)] delivers the whole file, nothing lost or read
    twice; no buffer is empty or longer than 1023 characters, and a newline
    can only be the last character of a buffer.  A physical line of more
    than 1023 characters therefore reaches the scan in several pieces. *)
Theorem file_lines_buffers (content : buffer) :
  concat (file_lines content) = content /\
  Forall (fun line =>
            (0 < length line <= 1023)%nat /\
            Forall (fun c => c <> "010"%char) (take (length line - 1) line))
         (file_lines content).
Proof.
  split.
  - apply read_lines_concat. reflexivity.
  - apply read_lines_shape.
Qed.

(** ** Splitting a record into fields *)

Lemma skip_while_head (f : ascii -> bool) (s : buffer) (c : ascii) (s' : buffer) :
  skip_while f s = c :: s' -> f c = false.
Proof.
  induction s as [|d s IH]; cbn [skip_while]; [discriminate|].
  destruct (f d) eqn:E; [exact IH|].
  intros [= <- _]. exact E.
Qed.

Lemma span_until_token (f : ascii -> bool) (s : buffer) :
  Forall (fun c => f c = false) (fst (span_until f s)).
Proof.
  induction s as [|c s IH]; cbn [span_until fst]; [constructor|].
  destruct (f c) eqn:E; cbn [fst]; [constructor|].
  destruct (span_until f s) as [tok rest]. cbn [fst] in *.
  constructor; assumption.
Qed.

Lemma span_until_nonempty (f : ascii -> bool) (c : ascii) (s : buffer) :
  f c = false -> fst (span_until f (c :: s)) <> [].
Proof.
  intros E. cbn [span_until]. rewrite E.
  destruct (span_until f s) as [tok rest]. discriminate.
Qed.

(** X12: the fields [strtok_r] cuts out of a record.  The splitting loop
    yields at most as many tokens as there is room for (eight in the scan),
    and no token is empty or contains a comma: adjacent commas do not make
    an empty field, they are skipped as one separator. *)
Theorem tokenize_fields_nonempty (room : nat) (s : buffer) :
  (length (tokenize room s) <= room)%nat /\
  Forall (fun tok => tok <> [] /\ ~ (","%char ∈ tok)) (tokenize room s).
Proof.
  revert s. induction room as [|room IH]; intros s; cbn [tokenize].
  - split; [cbn; lia|constructor].
  - unfold strtok_r.
    destruct (skip_while (Ascii.eqb ",") s) as [|c s'] eqn:Es.
    + split; [cbn; lia|constructor].
    + pose proof (skip_while_head _ _ _ _ Es) as Hc.
      pose proof (span_until_token (Ascii.eqb ",") (c :: s')) as Htok.
      pose proof (span_until_nonempty (Ascii.eqb ",") c s' Hc) as Hne.
      destruct (span_until (Ascii.eqb ",") (c :: s')) as [tok rest].
      cbn [fst] in *. destruct (IH (default [] rest)) as [Hlen Hall].
      split; [cbn [length]; lia|].
      constructor; [|exact Hall]. split; [exact Hne|].
      intros Hin. rewrite Forall_forall in Htok.
      specialize (Htok _ Hin). cbn in Htok. discriminate.
Qed.

(** ** What the resolver returns *)

Lemma slot_case_inv (type c : ascii) (img : Image) (index1 : Z)
    (slot : option addr) (t : UA_DataType)
    (rest r : option (addr * UA_DataType)) :
  slot_case type c img index1 slot t rest = r ->
  (type = c /\ 0 <= index1 < BUFFER_SIZE img /\
   exists p, slot = Some p /\ r = Some (p, t)) \/ rest = r.
Proof.
  unfold slot_case. destruct (Ascii.eqb_spec type c) as [->|]; [|auto].
  destruct (Z.leb_spec 0 index1); cbn [andb]; [|auto].
  destruct (Z.ltb_spec index1 (BUFFER_SIZE img)); [|auto].
  destruct slot as [p|]; [|auto].
  intros <-. left. repeat split; eauto.
Qed.

Ltac resolver_cases H :=
  repeat lazymatch type of H with
  | slot_case _ _ _ _ _ _ _ = _ =>
      apply slot_case_inv in H;
      destruct H as [(Hglyph & Hrange & q & Hslot & Hret)|H];
      [first [discriminate Hglyph
             |injection Hret; intros; subst]|]
  | None = Some _ => discriminate H
  end.

Lemma resolver_sound (img : Image) (location : buffer) (p : addr) (t : UA_DataType) :
  resolvePointerFromLocation img location = Some (p, t) ->
  let area := char_at location 1 in
  let type := char_at location 2 in
  let index1 := atoi (drop 3 location) in
  char_at location 0 = "%"%char /\
  0 <= index1 < BUFFER_SIZE img /\
  width_type type = Some t /\
  glue_entry img area type index1 (bit_number location) = Some p /\
  (type = "X"%char -> 0 <= bit_number location < 8).
Proof.
  intros H. cbv zeta. unfold resolvePointerFromLocation in H.
  destruct (Ascii.eqb_spec (char_at location 0) "%") as [H0|]; [|discriminate].
  cbn [negb] in H. unfold bit_number.
  generalize dependent (char_at location 2). intros type.
  generalize dependent (char_at location 1). intros area.
  generalize dependent (atoi (drop 3 location)). intros index1.
  intros H.
  destruct (Ascii.eqb_spec type "X") as [->|HX].
  - destruct (strchr (drop 3 location) ".") as [dot|]; [|discriminate].
    generalize dependent (atoi (drop (S dot) (drop 3 location))). intros index2 H.
    destruct (Z.ltb_spec index2 0); [discriminate|].
    destruct (Z.geb_spec index2 8); [discriminate|]. cbn [orb] in H.
    unfold glue_entry.
    destruct (Ascii.eqb_spec area "I") as [->|];
      [|destruct (Ascii.eqb_spec area "Q") as [->|];
        [|destruct (Ascii.eqb_spec area "M") as [->|]; [|discriminate]]];
      resolver_cases H.
    all: repeat split; try lia; try assumption.
  - generalize dependent (match strchr (drop 3 location) "." with
                          | Some dot => atoi (drop (S dot) (drop 3 location))
                          | None => -1
                          end).
    intros index2. cbv iota beta in H.
    unfold glue_entry.
    destruct (Ascii.eqb_spec area "I") as [->|];
      [|destruct (Ascii.eqb_spec area "Q") as [->|];
        [|destruct (Ascii.eqb_spec area "M") as [->|]; [|discriminate]]];
      resolver_cases H.
    all: try (exfalso; apply HX; reflexivity).
    all: repeat split; try lia; try assumption; try discriminate.
Qed.

Lemma slot_case_hit (c : ascii) (img : Image) (index1 : Z) (p : addr)
    (t : UA_DataType) (rest : option (addr * UA_DataType)) :
  0 <= index1 < BUFFER_SIZE img ->
  slot_case c c img index1 (Some p) t rest = Some (p, t).
Proof.
  intros [Hlo Hhi]. unfold slot_case. rewrite Ascii.eqb_refl.
  destruct (Z.leb_spec 0 index1); [|lia].
  destruct (Z.ltb_spec index1 (BUFFER_SIZE img)); [|lia]. reflexivity.
Qed.

Lemma slot_case_miss (type c : ascii) (img : Image) (index1 : Z)
    (slot : option addr) (t : UA_DataType) (rest : option (addr * UA_DataType)) :
  Ascii.eqb type c = false ->
  slot_case type c img index1 slot t rest = rest.
Proof. intros E. unfold slot_case. rewrite E. reflexivity. Qed.

Ltac resolver_area area :=
  destruct (Ascii.eqb_spec area "I") as [?|?];
    [subst area
    |destruct (Ascii.eqb_spec area "Q") as [?|?];
      [subst area|destruct (Ascii.eqb_spec area "M") as [?|?]; [subst area|]]].

Ltac resolver_hit Hg Hrange :=
  cbv beta iota delta [Ascii.eqb Bool.eqb andb] in Hg; try discriminate Hg;
  repeat (rewrite slot_case_miss by reflexivity);
  rewrite Hg; apply slot_case_hit; exact Hrange.

Ltac resolver_glyph type Hw c :=
  destruct (Ascii.eqb_spec type c) as [?|?]; [subst type; injection Hw as <-|].

Lemma resolver_complete (img : Image) (location : buffer) (p : addr) (t : UA_DataType) :
  char_at location 0 = "%"%char ->
  0 <= atoi (drop 3 location) < BUFFER_SIZE img ->
  width_type (char_at location 2) = Some t ->
  glue_entry img (char_at location 1) (char_at location 2)
    (atoi (drop 3 location)) (bit_number location) = Some p ->
  (char_at location 2 = "X"%char -> 0 <= bit_number location < 8) ->
  resolvePointerFromLocation img location = Some (p, t).
Proof.
  intros H0 Hrange Hw Hg Hbit. unfold resolvePointerFromLocation.
  rewrite H0. cbv beta iota delta [Ascii.eqb Bool.eqb andb negb].
  unfold bit_number in *.
  remember (char_at location 2) as type eqn:E; clear E.
  remember (char_at location 1) as area eqn:E; clear E.
  remember (atoi (drop 3 location)) as index1 eqn:E; clear E.
  unfold width_type, glue_entry in *.
  destruct (Ascii.eqb_spec type "X") as [HX|HX].
  - subst type. injection Hw as <-. specialize (Hbit eq_refl).
    destruct (strchr (drop 3 location) ".") as [dot|]; [|lia].
    remember (atoi (drop (S dot) (drop 3 location))) as index2 eqn:E; clear E.
    destruct (Z.ltb_spec index2 0); [lia|].
    destruct (Z.geb_spec index2 8); [lia|]. cbn [orb].
    resolver_area area; resolver_hit Hg Hrange.
  - clear Hbit.
    remember (match strchr (drop 3 location) "." with
              | Some dot => atoi (drop (S dot) (drop 3 location))
              | None => -1
              end) as index2 eqn:E; clear E.
    resolver_glyph type Hw "B"%char; [resolver_area area; resolver_hit Hg Hrange|].
    resolver_glyph type Hw "W"%char; [resolver_area area; resolver_hit Hg Hrange|].
    resolver_glyph type Hw "D"%char; [resolver_area area; resolver_hit Hg Hrange|].
    resolver_glyph type Hw "L"%char; [resolver_area area; resolver_hit Hg Hrange|].
    resolver_glyph type Hw "R"%char; [resolver_area area; resolver_hit Hg Hrange|].
    resolver_glyph type Hw "F"%char; [resolver_area area; resolver_hit Hg Hrange|].
    discriminate Hw.
Qed.


(** ** Decimal text of an [int] *)


Lemma digits_uint_acc (d : Decimal.uint) (acc : positive) (rest : buffer) :
  digits (Z.pos acc) (lit (NilEmpty.string_of_uint d) ++ rest) =
  digits (Z.pos (Pos.of_uint_acc d acc)) rest.
Proof.
  revert acc. induction d; intros acc;
    cbn [NilEmpty.string_of_uint lit list_ascii_of_string List.app Pos.of_uint_acc];
    try reflexivity;
    cbn [digits]; (change (isdigit _) with true); cbv iota;
    (lazymatch goal with
     | |- _ = digits (Z.pos (Pos.of_uint_acc d ?a)) rest => rewrite <- (IHd a)
     end);
    f_equal; unfold digit_value;
    (lazymatch goal with
     | |- context [Z.of_nat (nat_of_ascii ?c)] =>
         let v := eval vm_compute in (Z.of_nat (nat_of_ascii c)) in
         change (Z.of_nat (nat_of_ascii c)) with v
     end); lia.
Qed.

Lemma digits_uint (d : Decimal.uint) (rest : buffer) :
  digits 0 (lit (NilEmpty.string_of_uint d) ++ rest) =
  digits (Z.of_N (Pos.of_uint d)) rest.
Proof.
  induction d;
    cbn [NilEmpty.string_of_uint lit list_ascii_of_string List.app Pos.of_uint];
    try reflexivity;
    cbn [digits]; (change (isdigit _) with true); cbv iota;
    [exact IHd|..];
    cbn [Z.of_N]; rewrite <- digits_uint_acc; reflexivity.
Qed.

Lemma digits_stop (v : Z) (rest : buffer) :
  isdigit (char_at rest 0) = false -> digits v rest = v.
Proof.
  destruct rest as [|c rest]; [reflexivity|].
  cbn. intros ->. reflexivity.
Qed.

Lemma digits_to_uint (p : positive) (rest : buffer) :
  isdigit (char_at rest 0) = false ->
  digits 0 (lit (NilEmpty.string_of_uint (Pos.to_uint p)) ++ rest) = Z.pos p.
Proof.
  intros Hrest. rewrite digits_uint, DecimalPos.Unsigned.of_to.
  apply digits_stop. exact Hrest.
Qed.


Lemma uint_text_length (d : Decimal.uint) :
  length (lit (NilEmpty.string_of_uint d)) = Decimal.nb_digits d.
Proof.
  unfold lit.
  induction d; cbn [NilEmpty.string_of_uint list_ascii_of_string length
                    Decimal.nb_digits]; congruence.
Qed.

Lemma uint_text_digits (d : Decimal.uint) :
  Forall (fun c => isdigit c = true) (lit (NilEmpty.string_of_uint d)).
Proof.
  unfold lit.
  induction d; cbn [NilEmpty.string_of_uint list_ascii_of_string];
    constructor; solve [reflexivity | exact IHd].
Qed.

Lemma of_uint_acc_lower (d : Decimal.uint) (acc : positive) :
  Z.pos acc * 10 ^ Z.of_nat (Decimal.nb_digits d) <= Z.pos (Pos.of_uint_acc d acc).
Proof.
  revert acc. induction d; intros acc;
    cbn [Pos.of_uint_acc Decimal.nb_digits];
    [change (Z.of_nat 0) with 0; lia|..];
    rewrite Nat2Z.inj_succ, Z.pow_succ_r by lia;
    (lazymatch goal with
     | |- _ <= Z.pos (Pos.of_uint_acc d ?a) =>
         etransitivity; [|apply (IHd a)]
     end);
    assert (0 < 10 ^ Z.of_nat (Decimal.nb_digits d)) by (apply Z.pow_pos_nonneg; lia);
    nia.
Qed.

Lemma to_uint_normal (p : positive) :
  Decimal.unorm (Pos.to_uint p) = Pos.to_uint p.
Proof.
  rewrite <- DecimalPos.Unsigned.to_of, DecimalPos.Unsigned.of_to. reflexivity.
Qed.

Lemma to_uint_length (p : positive) :
  Z.pos p < 10 ^ 10 -> (Decimal.nb_digits (Pos.to_uint p) <= 10)%nat.
Proof.
  intros Hp.
  pose proof (DecimalPos.Unsigned.of_to p) as Hof.
  pose proof (to_uint_normal p) as Hnorm.
  pose proof (DecimalPos.Unsigned.to_uint_nonzero p) as Hnz.
  destruct (Pos.to_uint p) as [|d|d|d|d|d|d|d|d|d|d] eqn:E.
  1: { cbn; lia. }
  1: { destruct d as [|d|d|d|d|d|d|d|d|d|d]; [exfalso; apply Hnz; reflexivity|..];
      exfalso;
      (lazymatch type of Hnorm with
       | Decimal.unorm (Decimal.D0 ?l) = _ =>
           assert (l <> Decimal.Nil) as Hl by discriminate;
           pose proof (DecimalFacts.nb_digits_unorm l Hl) as Hle;
           change (Decimal.unorm (Decimal.D0 l)) with (Decimal.unorm l) in Hnorm;
           rewrite Hnorm in Hle; cbn [Decimal.nb_digits] in Hle; lia
       end). }
  all: cbn [Pos.of_uint] in Hof; injection Hof as Hof;
    (lazymatch type of Hof with
     | Pos.of_uint_acc ?l ?a = _ =>
         pose proof (of_uint_acc_lower l a) as Hlow; rewrite Hof in Hlow;
         cbn [Decimal.nb_digits];
         destruct (Nat.le_gt_cases (Decimal.nb_digits l) 9) as [|Hbig]; [lia|];
         exfalso;
         assert (10 ^ 10 <= 10 ^ Z.of_nat (Decimal.nb_digits l))
           by (apply Z.pow_le_mono_r; lia);
         nia
     end).
Qed.

Lemma fmt_d_pos (p : positive) :
  fmt_d (Z.pos p) = lit (NilEmpty.string_of_uint (Pos.to_uint p)).
Proof.
  unfold fmt_d. cbn [Z.to_int NilZero.string_of_int]. unfold NilZero.string_of_uint.
  pose proof (DecimalPos.Unsigned.to_uint_nonnil p) as Hnn.
  destruct (Pos.to_uint p); [contradiction|reflexivity..].
Qed.

Lemma fmt_d_neg (p : positive) :
  fmt_d (Z.neg p) = "-"%char :: fmt_d (Z.pos p).
Proof.
  rewrite fmt_d_pos. unfold fmt_d. cbn [Z.to_int NilZero.string_of_int].
  unfold NilZero.string_of_uint.
  pose proof (DecimalPos.Unsigned.to_uint_nonnil p) as Hnn.
  destruct (Pos.to_uint p); [contradiction|reflexivity..].
Qed.

Lemma fmt_d_pos_head (p : positive) :
  exists c s, fmt_d (Z.pos p) = c :: s /\ isdigit c = true.
Proof.
  rewrite fmt_d_pos.
  pose proof (DecimalPos.Unsigned.to_uint_nonnil p) as Hnn.
  pose proof (uint_text_digits (Pos.to_uint p)) as Hall.
  pose proof (uint_text_length (Pos.to_uint p)) as Hlen.
  destruct (lit (NilEmpty.string_of_uint (Pos.to_uint p))) as [|c s].
  - exfalso. apply Hnn. apply DecimalFacts.nb_digits_0. symmetry. exact Hlen.
  - exists c, s. split; [reflexivity|]. inversion Hall; assumption.
Qed.

Lemma strtol_unsigned (c : ascii) (s : buffer) :
  isdigit c = true ->
  strtol (c :: s) = Z.max LONG_MIN (Z.min LONG_MAX (digits 0 (c :: s))).
Proof.
  intros H.
  destruct c as [[] [] [] [] [] [] [] []]; vm_compute in H; try discriminate H;
    reflexivity.
Qed.

Lemma atoi_range (s : buffer) : - 2 ^ 31 <= atoi s < 2 ^ 31.
Proof.
  unfold atoi, wrap_int32.
  pose proof (Z.mod_pos_bound (strtol s + 2 ^ 31) (2 ^ 32)). lia.
Qed.

Lemma atoi_fmt_d (z : Z) (rest : buffer) :
  - 2 ^ 31 <= z < 2 ^ 31 ->
  isdigit (char_at rest 0) = false ->
  atoi (fmt_d z ++ rest) = z.
Proof.
  intros Hz Hrest.
  assert (forall p, Z.pos p <= 2 ^ 31 ->
            digits 0 (fmt_d (Z.pos p) ++ rest) = Z.pos p) as Hdigits.
  { intros p _. rewrite fmt_d_pos. apply digits_to_uint. exact Hrest. }
  unfold atoi, wrap_int32.
  destruct z as [|p|p].
  - change (fmt_d 0) with ["0"%char]. cbn [List.app].
    rewrite strtol_unsigned by reflexivity.
    cbn [digits]. change (isdigit "0") with true. cbv iota.
    rewrite digits_stop by exact Hrest. reflexivity.
  - destruct (fmt_d_pos_head p) as (c & s & Hcs & Hc).
    specialize (Hdigits p ltac:(lia)). rewrite Hcs in *. cbn [List.app] in *.
    rewrite strtol_unsigned, Hdigits by exact Hc.
    unfold LONG_MIN, LONG_MAX.
    rewrite Z.min_r, Z.max_r by lia.
    rewrite Z.mod_small by lia. lia.
  - specialize (Hdigits p ltac:(lia)). rewrite fmt_d_neg. cbn [List.app].
    change (strtol ("-"%char :: fmt_d (Z.pos p) ++ rest))
      with (Z.max LONG_MIN (Z.min LONG_MAX (- digits 0 (fmt_d (Z.pos p) ++ rest)))).
    rewrite Hdigits. unfold LONG_MIN, LONG_MAX.
    rewrite Z.min_r, Z.max_r by lia.
    rewrite Z.mod_small by lia. lia.
Qed.

Lemma fmt_d_length (z : Z) :
  - 2 ^ 31 <= z < 2 ^ 31 -> (length (fmt_d z) <= 11)%nat.
Proof.
  intros Hz.
  assert (forall p, Z.pos p <= 2 ^ 31 -> (length (fmt_d (Z.pos p)) <= 10)%nat) as Hpos.
  { intros p Hp. rewrite fmt_d_pos, uint_text_length. apply to_uint_length. lia. }
  destruct z as [|p|p].
  - cbn. lia.
  - specialize (Hpos p ltac:(lia)). lia.
  - rewrite fmt_d_neg. cbn [length]. specialize (Hpos p ltac:(lia)). lia.
Qed.

Lemma fmt_d_chars (z : Z) :
  Forall (fun c => Ascii.eqb c NUL = false /\ Ascii.eqb c "." = false) (fmt_d z).
Proof.
  assert (forall p, Forall (fun c => Ascii.eqb c NUL = false /\ Ascii.eqb c "." = false)
                      (fmt_d (Z.pos p))) as Hpos.
  { intros p. rewrite fmt_d_pos.
    eapply Forall_impl; [apply uint_text_digits|].
    intros c Hc. cbn beta in Hc.
    split; [destruct (Ascii.eqb_spec c NUL) as [->|]
           |destruct (Ascii.eqb_spec c ".") as [->|]];
      solve [reflexivity | vm_compute in Hc; discriminate Hc]. }
  destruct z as [|p|p].
  - repeat constructor.
  - apply Hpos.
  - rewrite fmt_d_neg. constructor; [split; reflexivity|apply Hpos].
Qed.

Lemma strchr_absent (s : buffer) (d : ascii) :
  Forall (fun c => Ascii.eqb c NUL = false /\ Ascii.eqb c d = false) s ->
  strchr s d = None.
Proof.
  induction 1 as [|c s [Hn Hd] _ IH]; cbn [strchr]; [reflexivity|].
  rewrite Hn, Hd, IH. reflexivity.
Qed.

Lemma strchr_first (s t : buffer) (d : ascii) :
  d <> NUL ->
  Forall (fun c => Ascii.eqb c NUL = false /\ Ascii.eqb c d = false) s ->
  strchr (s ++ d :: t) d = Some (length s).
Proof.
  intros Hd. induction 1 as [|c s [Hn Hc] _ IH]; cbn [strchr List.app length].
  - apply Ascii.eqb_neq in Hd. rewrite Hd, Ascii.eqb_refl. reflexivity.
  - rewrite Hn, Hc, IH. reflexivity.
Qed.

(** ** The location text the scan composes *)

Lemma glue_entry_bit_irrelevant (img : Image) (area type : ascii) (i b b' : Z) :
  type <> "X"%char -> glue_entry img area type i b = glue_entry img area type i b'.
Proof.
  intros H. apply Ascii.eqb_neq in H. unfold glue_entry. rewrite H. reflexivity.
Qed.

Lemma location_word (area typ : ascii) (idx1 : Z) :
  - 2 ^ 31 <= idx1 < 2 ^ 31 ->
  let location := snprintf 64 (["%"%char; area; typ] ++ fmt_d idx1) in
  char_at location 0 = "%"%char /\ char_at location 1 = area /\
  char_at location 2 = typ /\ atoi (drop 3 location) = idx1.
Proof.
  intros Hz. cbv zeta. unfold snprintf.
  pose proof (fmt_d_length idx1 Hz) as Hlen.
  change (take (64 - 1) (["%"%char; area; typ] ++ fmt_d idx1))
    with ("%"%char :: area :: typ :: take 60 (fmt_d idx1)).
  rewrite take_ge by lia.
  repeat split. cbn [drop]. rewrite drop_0.
  rewrite <- (app_nil_r (fmt_d idx1)). apply atoi_fmt_d; [exact Hz|reflexivity].
Qed.

Lemma location_bit (area : ascii) (idx1 idx2 : Z) :
  - 2 ^ 31 <= idx1 < 2 ^ 31 ->
  - 2 ^ 31 <= idx2 < 2 ^ 31 ->
  let location :=
    snprintf 64 (["%"%char; area; "X"%char] ++ fmt_d idx1 ++ ["."%char] ++ fmt_d idx2) in
  char_at location 0 = "%"%char /\ char_at location 1 = area /\
  char_at location 2 = "X"%char /\ atoi (drop 3 location) = idx1 /\
  bit_number location = idx2.
Proof.
  intros Hz1 Hz2. cbv zeta. unfold snprintf, bit_number.
  pose proof (fmt_d_length idx1 Hz1) as Hlen1.
  pose proof (fmt_d_length idx2 Hz2) as Hlen2.
  change (take (64 - 1) (["%"%char; area; "X"%char] ++ fmt_d idx1 ++ ["."%char] ++ fmt_d idx2))
    with ("%"%char :: area :: "X"%char :: take 60 (fmt_d idx1 ++ "."%char :: fmt_d idx2)).
  rewrite take_ge by (rewrite length_app; cbn [length]; lia).
  cbn [drop]. rewrite !drop_0.
  repeat split.
  - apply atoi_fmt_d; [exact Hz1|reflexivity].
  - rewrite strchr_first by (discriminate || apply fmt_d_chars).
    rewrite cons_middle, app_assoc.
    rewrite drop_app_length' by (rewrite length_app; cbn [length]; lia).
    rewrite <- (app_nil_r (fmt_d idx2)). apply atoi_fmt_d; [exact Hz2|reflexivity].
Qed.

Lemma composed_location_resolution (img : Image) (area typ : ascii)
    (idx1 idx2 : Z) (ptr : addr) (t : UA_DataType) :
  - 2 ^ 31 <= idx1 < 2 ^ 31 ->
  - 2 ^ 31 <= idx2 < 2 ^ 31 ->
  resolvePointerFromLocation img
    (if Ascii.eqb typ "X"
     then snprintf 64
            (["%"%char; area; "X"%char] ++ fmt_d idx1 ++ ["."%char] ++ fmt_d idx2)
     else snprintf 64 (["%"%char; area; typ] ++ fmt_d idx1)) = Some (ptr, t) <->
  0 <= idx1 < BUFFER_SIZE img /\ width_type typ = Some t /\
  glue_entry img area typ idx1 idx2 = Some ptr /\
  (typ = "X"%char -> 0 <= idx2 < 8).
Proof.
  intros H1 H2.
  destruct (Ascii.eqb_spec typ "X") as [HX|HX].
  - subst typ.
    destruct (location_bit area idx1 idx2 H1 H2) as (L0 & L1 & L2 & L3 & L4).
    split.
    + intros H. apply resolver_sound in H. cbv zeta in H.
      rewrite L1, L2, L3, L4 in H. tauto.
    + intros (Hr & Hw & Hg & Hb). apply resolver_complete;
        rewrite ?L1, ?L2, ?L3, ?L4; auto.
  - destruct (location_word area typ idx1 H1) as (L0 & L1 & L2 & L3).
    split.
    + intros H. apply resolver_sound in H. cbv zeta in H.
      rewrite L1, L2, L3 in H.
      rewrite (glue_entry_bit_irrelevant img area typ idx1 _ idx2 HX) in H.
      destruct H as (_ & Hr & Hw & Hg & _). repeat split; tauto.
    + intros (Hr & Hw & Hg & Hb). apply resolver_complete;
        rewrite ?L1, ?L2, ?L3; auto.
      * rewrite (glue_entry_bit_irrelevant img area typ idx1 _ idx2 HX). exact Hg.
      * intros; contradiction.
Qed.

(** X14: from a record to a table entry.  For a line that carries the
    marker, has its parentheses and splits into at least six fields, the
    scan composes a location text which the resolver reads back to exactly
    the fields of the record: it resolves to a pointer and type exactly when
    the fifth field, read as an integer, is an index inside the glue tables,
    the first character of the fourth field is a width letter that fixes
    the type, the table named by the first characters of the third and
    fourth fields holds a non-NULL pointer there, and for width X the sixth
    field is a bit number in 0..7.  Printing the indices with [%d] into the
    64-byte buffer and reading them back with [atoi] loses nothing. *)
Theorem located_var_binding (img : Image) (line args : buffer) (k : nat) :
  let p := skip_while is_blank (c_str line) in
  let tokens := tokenize 8 args in
  let tok := fun i => default [] (tokens !! i) in
  let area := char_at (skip_while is_space_or_tab (tok 2%nat)) 0 in
  let typ := char_at (skip_while is_space_or_tab (tok 3%nat)) 0 in
  let idx1 := atoi (tok 4%nat) in
  let idx2 := atoi (tok 5%nat) in
  strstr p (lit "__LOCATED_VAR(") = Some k ->
  located_var_args p = Some args ->
  (6 <= length tokens)%nat ->
  exists dispName location,
    parse_located_var line = LocatedVar dispName location /\
    forall ptr t,
      resolvePointerFromLocation img location = Some (ptr, t) <->
      0 <= idx1 < BUFFER_SIZE img /\ width_type typ = Some t /\
      glue_entry img area typ idx1 idx2 = Some ptr /\
      (typ = "X"%char -> 0 <= idx2 < 8).
Proof.
  intros p tokens tok area typ idx1 idx2 Hmarker Hargs Hsix.
  unfold parse_located_var. fold p. rewrite Hmarker, Hargs. cbv zeta.
  fold tokens. destruct (Nat.ltb_spec (length tokens) 6) as [|_]; [lia|].
  destruct (Nat.leb_spec 6 (length tokens)) as [_|]; [|lia].
  eexists _, _. split; [reflexivity|]. intros ptr t.
  apply (composed_location_resolution img area typ idx1 idx2 ptr t);
    apply atoi_range.
Qed.

Lemma located_var_binding_witness :
  exists dispName location,
    parse_located_var bit_line = LocatedVar dispName location /\
    forall ptr t,
      resolvePointerFromLocation demo_image location = Some (ptr, t) <->
      0 <= 0 < BUFFER_SIZE demo_image /\ width_type "X" = Some t /\
      glue_entry demo_image "Q" "X" 0 1 = Some ptr /\
      ("X"%char = "X"%char -> 0 <= 1 < 8).
Proof.
  assert (Hsix : (6 <= length (tokenize 8 (lit "BOOL,__QX0_1,Q,X,0,1")))%nat)
    by (vm_compute; lia).
  exact (located_var_binding demo_image bit_line (lit "BOOL,__QX0_1,Q,X,0,1") 0
           eq_refl eq_refl Hsix).
Defined.
